(** * A verification model of the plugin-manager backend

    [src/app/unraid.py]: the container client ([UnraidClient]) over a
    remote GraphQL server, as a state/error monad with an event log.
    [src/app/main.py]: the sandboxed file service ([safe_path],
    [list_files], [upload_file], [create_folder], [delete_item]) over a
    symlink-free filesystem held as a finite map from absolute paths to
    nodes.

    The file service follows CPython 3.11 on Linux: [pathlib]'s
    [resolve()], [exists()], [is_dir()] and [is_file()], the errors of
    [os.stat], [open] and [os.mkdir] with their [errno] and message, and
    [str.lower()] and [repr()] over the Unicode 14.0 tables.  A path
    exists iff the map holds it; the length limits of Linux ([NAME_MAX],
    [PATH_MAX]) are checked on the lookup of a path the map does not hold,
    which are the only ones the program can create. *)

From Stdlib Require Import Ascii String.
From stdpp Require Import base gmap strings list sorting.

Open Scope list_scope.

(* ================================================================== *)
(** ** Paths, as [pathlib] parses and resolves them *)

Definition slash : ascii := "/"%char.

(** [s.split("/")]. *)
Fixpoint split_slash (s : string) : list string :=
  match s with
  | EmptyString => [EmptyString]
  | String c rest =>
      if Ascii.eqb c slash then EmptyString :: split_slash rest
      else match split_slash rest with
           | [] => [String c EmptyString]
           | w :: ws => String c w :: ws
           end
  end.

(** The components [pathlib.PurePosixPath] keeps: empty components (from
    repeated or trailing slashes) and ["."] are dropped, [".."] is kept. *)
Definition parts (s : string) : list string :=
  List.filter (fun c => negb (String.eqb c "") && negb (String.eqb c "."))
         (split_slash s).

(** [Path(s).name]: the last component, [""] when there is none. *)
Definition py_name (s : string) : string := default "" (last (parts s)).

(** [s.lstrip("/")]. *)
Fixpoint lstrip_slash (s : string) : string :=
  match s with
  | String c rest => if Ascii.eqb c slash then lstrip_slash rest else s
  | EmptyString => EmptyString
  end.

(** [s.startswith(".")]. *)
Definition starts_with_dot (s : string) : bool :=
  match s with
  | String c _ => Ascii.eqb c "."%char
  | EmptyString => false
  end.

(** An absolute path is the list of its components below [/]. *)
Abbreviation Path := (list string).

(** [Path.resolve()] on a symlink-free tree ([os.path.realpath]): the
    components are walked left to right; [".."] goes to the parent (and
    stays at [/] at the top), every other component is entered.  The
    stack [acc] holds the components reached so far, innermost first. *)
Fixpoint resolve_from (acc : list string) (cs : list string) : list string :=
  match cs with
  | [] => acc
  | c :: cs' =>
      if String.eqb c ".." then resolve_from (tail acc) cs'
      else if String.eqb c "." then resolve_from acc cs'
      else if String.eqb c "" then resolve_from acc cs'
      else resolve_from (c :: acc) cs'
  end.

Definition resolve (p : Path) : Path := rev (resolve_from [] p).

(** A component of a resolved path. *)
Definition plain_component (c : string) : bool :=
  negb (String.eqb c "") && negb (String.eqb c ".") && negb (String.eqb c "..").

Definition resolved (p : Path) : bool := forallb plain_component p.

(** [target.relative_to(base)] succeeds iff the components of [base] are
    a prefix of those of [target]. *)
Fixpoint is_prefix (base target : Path) : bool :=
  match base, target with
  | [], _ => true
  | b :: bs, t :: ts => String.eqb b t && is_prefix bs ts
  | _ :: _, [] => false
  end.

(* ================================================================== *)
(** ** Text: the [str] behind a string of bytes

    A string of the model holds bytes: those of [os.fsencode] of a Python
    [str] (UTF-8, and a lone surrogate U+DC80..U+DCFF for each byte that
    is not part of well-formed UTF-8).  [str] operations work on the code
    points [decode] gives back.  The tables are those of CPython 3.11
    ([unicodedata.unidata_version] 14.0.0). *)

Section Text.
Local Open Scope Z_scope.

(** The one-character lower-case mappings, as runs [(lo, hi, step, delta)]:
    every [c] from [lo] to [hi] in steps of [step] lowers to [c + delta]. *)
Definition lower_runs : list (Z * Z * Z * Z) := [
  (0x41, 0x5A, 1, 32); (0xC0, 0xD6, 1, 32); (0xD8, 0xDE, 1, 32); (0x100, 0x12E, 2, 1);
  (0x132, 0x136, 2, 1); (0x139, 0x147, 2, 1); (0x14A, 0x176, 2, 1); (0x178, 0x178, 1, -121);
  (0x179, 0x17D, 2, 1); (0x181, 0x181, 1, 210); (0x182, 0x184, 2, 1); (0x186, 0x186, 1, 206);
  (0x187, 0x187, 1, 1); (0x189, 0x18A, 1, 205); (0x18B, 0x18B, 1, 1); (0x18E, 0x18E, 1, 79);
  (0x18F, 0x18F, 1, 202); (0x190, 0x190, 1, 203); (0x191, 0x191, 1, 1); (0x193, 0x193, 1, 205);
  (0x194, 0x194, 1, 207); (0x196, 0x196, 1, 211); (0x197, 0x197, 1, 209); (0x198, 0x198, 1, 1);
  (0x19C, 0x19C, 1, 211); (0x19D, 0x19D, 1, 213); (0x19F, 0x19F, 1, 214); (0x1A0, 0x1A4, 2, 1);
  (0x1A6, 0x1A6, 1, 218); (0x1A7, 0x1A7, 1, 1); (0x1A9, 0x1A9, 1, 218); (0x1AC, 0x1AC, 1, 1);
  (0x1AE, 0x1AE, 1, 218); (0x1AF, 0x1AF, 1, 1); (0x1B1, 0x1B2, 1, 217); (0x1B3, 0x1B5, 2, 1);
  (0x1B7, 0x1B7, 1, 219); (0x1B8, 0x1B8, 1, 1); (0x1BC, 0x1BC, 1, 1); (0x1C4, 0x1C4, 1, 2);
  (0x1C5, 0x1C5, 1, 1); (0x1C7, 0x1C7, 1, 2); (0x1C8, 0x1C8, 1, 1); (0x1CA, 0x1CA, 1, 2);
  (0x1CB, 0x1DB, 2, 1); (0x1DE, 0x1EE, 2, 1); (0x1F1, 0x1F1, 1, 2); (0x1F2, 0x1F4, 2, 1);
  (0x1F6, 0x1F6, 1, -97); (0x1F7, 0x1F7, 1, -56); (0x1F8, 0x21E, 2, 1); (0x220, 0x220, 1, -130);
  (0x222, 0x232, 2, 1); (0x23A, 0x23A, 1, 10795); (0x23B, 0x23B, 1, 1); (0x23D, 0x23D, 1, -163);
  (0x23E, 0x23E, 1, 10792); (0x241, 0x241, 1, 1); (0x243, 0x243, 1, -195); (0x244, 0x244, 1, 69);
  (0x245, 0x245, 1, 71); (0x246, 0x24E, 2, 1); (0x370, 0x372, 2, 1); (0x376, 0x376, 1, 1);
  (0x37F, 0x37F, 1, 116); (0x386, 0x386, 1, 38); (0x388, 0x38A, 1, 37); (0x38C, 0x38C, 1, 64);
  (0x38E, 0x38F, 1, 63); (0x391, 0x3A1, 1, 32); (0x3A4, 0x3AB, 1, 32); (0x3CF, 0x3CF, 1, 8);
  (0x3D8, 0x3EE, 2, 1); (0x3F4, 0x3F4, 1, -60); (0x3F7, 0x3F7, 1, 1); (0x3F9, 0x3F9, 1, -7);
  (0x3FA, 0x3FA, 1, 1); (0x3FD, 0x3FF, 1, -130); (0x400, 0x40F, 1, 80); (0x410, 0x42F, 1, 32);
  (0x460, 0x480, 2, 1); (0x48A, 0x4BE, 2, 1); (0x4C0, 0x4C0, 1, 15); (0x4C1, 0x4CD, 2, 1);
  (0x4D0, 0x52E, 2, 1); (0x531, 0x556, 1, 48); (0x10A0, 0x10C5, 1, 7264);
  (0x10C7, 0x10C7, 1, 7264); (0x10CD, 0x10CD, 1, 7264); (0x13A0, 0x13EF, 1, 38864);
  (0x13F0, 0x13F5, 1, 8); (0x1C90, 0x1CBA, 1, -3008); (0x1CBD, 0x1CBF, 1, -3008);
  (0x1E00, 0x1E94, 2, 1); (0x1E9E, 0x1E9E, 1, -7615); (0x1EA0, 0x1EFE, 2, 1);
  (0x1F08, 0x1F0F, 1, -8); (0x1F18, 0x1F1D, 1, -8); (0x1F28, 0x1F2F, 1, -8);
  (0x1F38, 0x1F3F, 1, -8); (0x1F48, 0x1F4D, 1, -8); (0x1F59, 0x1F5F, 2, -8);
  (0x1F68, 0x1F6F, 1, -8); (0x1F88, 0x1F8F, 1, -8); (0x1F98, 0x1F9F, 1, -8);
  (0x1FA8, 0x1FAF, 1, -8); (0x1FB8, 0x1FB9, 1, -8); (0x1FBA, 0x1FBB, 1, -74);
  (0x1FBC, 0x1FBC, 1, -9); (0x1FC8, 0x1FCB, 1, -86); (0x1FCC, 0x1FCC, 1, -9);
  (0x1FD8, 0x1FD9, 1, -8); (0x1FDA, 0x1FDB, 1, -100); (0x1FE8, 0x1FE9, 1, -8);
  (0x1FEA, 0x1FEB, 1, -112); (0x1FEC, 0x1FEC, 1, -7); (0x1FF8, 0x1FF9, 1, -128);
  (0x1FFA, 0x1FFB, 1, -126); (0x1FFC, 0x1FFC, 1, -9); (0x2126, 0x2126, 1, -7517);
  (0x212A, 0x212A, 1, -8383); (0x212B, 0x212B, 1, -8262); (0x2132, 0x2132, 1, 28);
  (0x2160, 0x216F, 1, 16); (0x2183, 0x2183, 1, 1); (0x24B6, 0x24CF, 1, 26);
  (0x2C00, 0x2C2F, 1, 48); (0x2C60, 0x2C60, 1, 1); (0x2C62, 0x2C62, 1, -10743);
  (0x2C63, 0x2C63, 1, -3814); (0x2C64, 0x2C64, 1, -10727); (0x2C67, 0x2C6B, 2, 1);
  (0x2C6D, 0x2C6D, 1, -10780); (0x2C6E, 0x2C6E, 1, -10749); (0x2C6F, 0x2C6F, 1, -10783);
  (0x2C70, 0x2C70, 1, -10782); (0x2C72, 0x2C72, 1, 1); (0x2C75, 0x2C75, 1, 1);
  (0x2C7E, 0x2C7F, 1, -10815); (0x2C80, 0x2CE2, 2, 1); (0x2CEB, 0x2CED, 2, 1);
  (0x2CF2, 0x2CF2, 1, 1); (0xA640, 0xA66C, 2, 1); (0xA680, 0xA69A, 2, 1); (0xA722, 0xA72E, 2, 1);
  (0xA732, 0xA76E, 2, 1); (0xA779, 0xA77B, 2, 1); (0xA77D, 0xA77D, 1, -35332);
  (0xA77E, 0xA786, 2, 1); (0xA78B, 0xA78B, 1, 1); (0xA78D, 0xA78D, 1, -42280);
  (0xA790, 0xA792, 2, 1); (0xA796, 0xA7A8, 2, 1); (0xA7AA, 0xA7AA, 1, -42308);
  (0xA7AB, 0xA7AB, 1, -42319); (0xA7AC, 0xA7AC, 1, -42315); (0xA7AD, 0xA7AD, 1, -42305);
  (0xA7AE, 0xA7AE, 1, -42308); (0xA7B0, 0xA7B0, 1, -42258); (0xA7B1, 0xA7B1, 1, -42282);
  (0xA7B2, 0xA7B2, 1, -42261); (0xA7B3, 0xA7B3, 1, 928); (0xA7B4, 0xA7C2, 2, 1);
  (0xA7C4, 0xA7C4, 1, -48); (0xA7C5, 0xA7C5, 1, -42307); (0xA7C6, 0xA7C6, 1, -35384);
  (0xA7C7, 0xA7C9, 2, 1); (0xA7D0, 0xA7D0, 1, 1); (0xA7D6, 0xA7D8, 2, 1); (0xA7F5, 0xA7F5, 1, 1);
  (0xFF21, 0xFF3A, 1, 32); (0x10400, 0x10427, 1, 40); (0x104B0, 0x104D3, 1, 40);
  (0x10570, 0x1057A, 1, 39); (0x1057C, 0x1058A, 1, 39); (0x1058C, 0x10592, 1, 39);
  (0x10594, 0x10595, 1, 39); (0x10C80, 0x10CB2, 1, 64); (0x118A0, 0x118BF, 1, 32);
  (0x16E40, 0x16E5F, 1, 32); (0x1E900, 0x1E921, 1, 34)
].

(** The code points with the property [Cased]. *)
Definition cased_ranges : list (Z * Z) := [
  (0x41, 0x5A); (0x61, 0x7A); (0xAA, 0xAA); (0xB5, 0xB5); (0xBA, 0xBA); (0xC0, 0xD6);
  (0xD8, 0xF6); (0xF8, 0x1BA); (0x1BC, 0x1BF); (0x1C4, 0x293); (0x295, 0x2B8); (0x2C0, 0x2C1);
  (0x2E0, 0x2E4); (0x345, 0x345); (0x370, 0x373); (0x376, 0x377); (0x37A, 0x37D); (0x37F, 0x37F);
  (0x386, 0x386); (0x388, 0x38A); (0x38C, 0x38C); (0x38E, 0x3A1); (0x3A3, 0x3F5); (0x3F7, 0x481);
  (0x48A, 0x52F); (0x531, 0x556); (0x560, 0x588); (0x10A0, 0x10C5); (0x10C7, 0x10C7);
  (0x10CD, 0x10CD); (0x10D0, 0x10FA); (0x10FD, 0x10FF); (0x13A0, 0x13F5); (0x13F8, 0x13FD);
  (0x1C80, 0x1C88); (0x1C90, 0x1CBA); (0x1CBD, 0x1CBF); (0x1D00, 0x1DBF); (0x1E00, 0x1F15);
  (0x1F18, 0x1F1D); (0x1F20, 0x1F45); (0x1F48, 0x1F4D); (0x1F50, 0x1F57); (0x1F59, 0x1F59);
  (0x1F5B, 0x1F5B); (0x1F5D, 0x1F5D); (0x1F5F, 0x1F7D); (0x1F80, 0x1FB4); (0x1FB6, 0x1FBC);
  (0x1FBE, 0x1FBE); (0x1FC2, 0x1FC4); (0x1FC6, 0x1FCC); (0x1FD0, 0x1FD3); (0x1FD6, 0x1FDB);
  (0x1FE0, 0x1FEC); (0x1FF2, 0x1FF4); (0x1FF6, 0x1FFC); (0x2071, 0x2071); (0x207F, 0x207F);
  (0x2090, 0x209C); (0x2102, 0x2102); (0x2107, 0x2107); (0x210A, 0x2113); (0x2115, 0x2115);
  (0x2119, 0x211D); (0x2124, 0x2124); (0x2126, 0x2126); (0x2128, 0x2128); (0x212A, 0x212D);
  (0x212F, 0x2134); (0x2139, 0x2139); (0x213C, 0x213F); (0x2145, 0x2149); (0x214E, 0x214E);
  (0x2160, 0x217F); (0x2183, 0x2184); (0x24B6, 0x24E9); (0x2C00, 0x2CE4); (0x2CEB, 0x2CEE);
  (0x2CF2, 0x2CF3); (0x2D00, 0x2D25); (0x2D27, 0x2D27); (0x2D2D, 0x2D2D); (0xA640, 0xA66D);
  (0xA680, 0xA69D); (0xA722, 0xA787); (0xA78B, 0xA78E); (0xA790, 0xA7CA); (0xA7D0, 0xA7D1);
  (0xA7D3, 0xA7D3); (0xA7D5, 0xA7D9); (0xA7F5, 0xA7F6); (0xA7F8, 0xA7FA); (0xAB30, 0xAB5A);
  (0xAB5C, 0xAB68); (0xAB70, 0xABBF); (0xFB00, 0xFB06); (0xFB13, 0xFB17); (0xFF21, 0xFF3A);
  (0xFF41, 0xFF5A); (0x10400, 0x1044F); (0x104B0, 0x104D3); (0x104D8, 0x104FB);
  (0x10570, 0x1057A); (0x1057C, 0x1058A); (0x1058C, 0x10592); (0x10594, 0x10595);
  (0x10597, 0x105A1); (0x105A3, 0x105B1); (0x105B3, 0x105B9); (0x105BB, 0x105BC);
  (0x10780, 0x10780); (0x10783, 0x10785); (0x10787, 0x107B0); (0x107B2, 0x107BA);
  (0x10C80, 0x10CB2); (0x10CC0, 0x10CF2); (0x118A0, 0x118DF); (0x16E40, 0x16E7F);
  (0x1D400, 0x1D454); (0x1D456, 0x1D49C); (0x1D49E, 0x1D49F); (0x1D4A2, 0x1D4A2);
  (0x1D4A5, 0x1D4A6); (0x1D4A9, 0x1D4AC); (0x1D4AE, 0x1D4B9); (0x1D4BB, 0x1D4BB);
  (0x1D4BD, 0x1D4C3); (0x1D4C5, 0x1D505); (0x1D507, 0x1D50A); (0x1D50D, 0x1D514);
  (0x1D516, 0x1D51C); (0x1D51E, 0x1D539); (0x1D53B, 0x1D53E); (0x1D540, 0x1D544);
  (0x1D546, 0x1D546); (0x1D54A, 0x1D550); (0x1D552, 0x1D6A5); (0x1D6A8, 0x1D6C0);
  (0x1D6C2, 0x1D6DA); (0x1D6DC, 0x1D6FA); (0x1D6FC, 0x1D714); (0x1D716, 0x1D734);
  (0x1D736, 0x1D74E); (0x1D750, 0x1D76E); (0x1D770, 0x1D788); (0x1D78A, 0x1D7A8);
  (0x1D7AA, 0x1D7C2); (0x1D7C4, 0x1D7CB); (0x1DF00, 0x1DF09); (0x1DF0B, 0x1DF1E);
  (0x1E900, 0x1E943); (0x1F130, 0x1F149); (0x1F150, 0x1F169); (0x1F170, 0x1F189)
].

(** The code points with the property [Case_Ignorable]. *)
Definition case_ignorable_ranges : list (Z * Z) := [
  (0x27, 0x27); (0x2E, 0x2E); (0x3A, 0x3A); (0x5E, 0x5E); (0x60, 0x60); (0xA8, 0xA8);
  (0xAD, 0xAD); (0xAF, 0xAF); (0xB4, 0xB4); (0xB7, 0xB8); (0x2B0, 0x36F); (0x374, 0x375);
  (0x37A, 0x37A); (0x384, 0x385); (0x387, 0x387); (0x483, 0x489); (0x559, 0x559); (0x55F, 0x55F);
  (0x591, 0x5BD); (0x5BF, 0x5BF); (0x5C1, 0x5C2); (0x5C4, 0x5C5); (0x5C7, 0x5C7); (0x5F4, 0x5F4);
  (0x600, 0x605); (0x610, 0x61A); (0x61C, 0x61C); (0x640, 0x640); (0x64B, 0x65F); (0x670, 0x670);
  (0x6D6, 0x6DD); (0x6DF, 0x6E8); (0x6EA, 0x6ED); (0x70F, 0x70F); (0x711, 0x711); (0x730, 0x74A);
  (0x7A6, 0x7B0); (0x7EB, 0x7F5); (0x7FA, 0x7FA); (0x7FD, 0x7FD); (0x816, 0x82D); (0x859, 0x85B);
  (0x888, 0x888); (0x890, 0x891); (0x898, 0x89F); (0x8C9, 0x902); (0x93A, 0x93A); (0x93C, 0x93C);
  (0x941, 0x948); (0x94D, 0x94D); (0x951, 0x957); (0x962, 0x963); (0x971, 0x971); (0x981, 0x981);
  (0x9BC, 0x9BC); (0x9C1, 0x9C4); (0x9CD, 0x9CD); (0x9E2, 0x9E3); (0x9FE, 0x9FE); (0xA01, 0xA02);
  (0xA3C, 0xA3C); (0xA41, 0xA42); (0xA47, 0xA48); (0xA4B, 0xA4D); (0xA51, 0xA51); (0xA70, 0xA71);
  (0xA75, 0xA75); (0xA81, 0xA82); (0xABC, 0xABC); (0xAC1, 0xAC5); (0xAC7, 0xAC8); (0xACD, 0xACD);
  (0xAE2, 0xAE3); (0xAFA, 0xAFF); (0xB01, 0xB01); (0xB3C, 0xB3C); (0xB3F, 0xB3F); (0xB41, 0xB44);
  (0xB4D, 0xB4D); (0xB55, 0xB56); (0xB62, 0xB63); (0xB82, 0xB82); (0xBC0, 0xBC0); (0xBCD, 0xBCD);
  (0xC00, 0xC00); (0xC04, 0xC04); (0xC3C, 0xC3C); (0xC3E, 0xC40); (0xC46, 0xC48); (0xC4A, 0xC4D);
  (0xC55, 0xC56); (0xC62, 0xC63); (0xC81, 0xC81); (0xCBC, 0xCBC); (0xCBF, 0xCBF); (0xCC6, 0xCC6);
  (0xCCC, 0xCCD); (0xCE2, 0xCE3); (0xD00, 0xD01); (0xD3B, 0xD3C); (0xD41, 0xD44); (0xD4D, 0xD4D);
  (0xD62, 0xD63); (0xD81, 0xD81); (0xDCA, 0xDCA); (0xDD2, 0xDD4); (0xDD6, 0xDD6); (0xE31, 0xE31);
  (0xE34, 0xE3A); (0xE46, 0xE4E); (0xEB1, 0xEB1); (0xEB4, 0xEBC); (0xEC6, 0xEC6); (0xEC8, 0xECD);
  (0xF18, 0xF19); (0xF35, 0xF35); (0xF37, 0xF37); (0xF39, 0xF39); (0xF71, 0xF7E); (0xF80, 0xF84);
  (0xF86, 0xF87); (0xF8D, 0xF97); (0xF99, 0xFBC); (0xFC6, 0xFC6); (0x102D, 0x1030);
  (0x1032, 0x1037); (0x1039, 0x103A); (0x103D, 0x103E); (0x1058, 0x1059); (0x105E, 0x1060);
  (0x1071, 0x1074); (0x1082, 0x1082); (0x1085, 0x1086); (0x108D, 0x108D); (0x109D, 0x109D);
  (0x10FC, 0x10FC); (0x135D, 0x135F); (0x1712, 0x1714); (0x1732, 0x1733); (0x1752, 0x1753);
  (0x1772, 0x1773); (0x17B4, 0x17B5); (0x17B7, 0x17BD); (0x17C6, 0x17C6); (0x17C9, 0x17D3);
  (0x17D7, 0x17D7); (0x17DD, 0x17DD); (0x180B, 0x180F); (0x1843, 0x1843); (0x1885, 0x1886);
  (0x18A9, 0x18A9); (0x1920, 0x1922); (0x1927, 0x1928); (0x1932, 0x1932); (0x1939, 0x193B);
  (0x1A17, 0x1A18); (0x1A1B, 0x1A1B); (0x1A56, 0x1A56); (0x1A58, 0x1A5E); (0x1A60, 0x1A60);
  (0x1A62, 0x1A62); (0x1A65, 0x1A6C); (0x1A73, 0x1A7C); (0x1A7F, 0x1A7F); (0x1AA7, 0x1AA7);
  (0x1AB0, 0x1ACE); (0x1B00, 0x1B03); (0x1B34, 0x1B34); (0x1B36, 0x1B3A); (0x1B3C, 0x1B3C);
  (0x1B42, 0x1B42); (0x1B6B, 0x1B73); (0x1B80, 0x1B81); (0x1BA2, 0x1BA5); (0x1BA8, 0x1BA9);
  (0x1BAB, 0x1BAD); (0x1BE6, 0x1BE6); (0x1BE8, 0x1BE9); (0x1BED, 0x1BED); (0x1BEF, 0x1BF1);
  (0x1C2C, 0x1C33); (0x1C36, 0x1C37); (0x1C78, 0x1C7D); (0x1CD0, 0x1CD2); (0x1CD4, 0x1CE0);
  (0x1CE2, 0x1CE8); (0x1CED, 0x1CED); (0x1CF4, 0x1CF4); (0x1CF8, 0x1CF9); (0x1D2C, 0x1D6A);
  (0x1D78, 0x1D78); (0x1D9B, 0x1DFF); (0x1FBD, 0x1FBD); (0x1FBF, 0x1FC1); (0x1FCD, 0x1FCF);
  (0x1FDD, 0x1FDF); (0x1FED, 0x1FEF); (0x1FFD, 0x1FFE); (0x200B, 0x200F); (0x2018, 0x2019);
  (0x2024, 0x2024); (0x2027, 0x2027); (0x202A, 0x202E); (0x2060, 0x2064); (0x2066, 0x206F);
  (0x2071, 0x2071); (0x207F, 0x207F); (0x2090, 0x209C); (0x20D0, 0x20F0); (0x2C7C, 0x2C7D);
  (0x2CEF, 0x2CF1); (0x2D6F, 0x2D6F); (0x2D7F, 0x2D7F); (0x2DE0, 0x2DFF); (0x2E2F, 0x2E2F);
  (0x3005, 0x3005); (0x302A, 0x302D); (0x3031, 0x3035); (0x303B, 0x303B); (0x3099, 0x309E);
  (0x30FC, 0x30FE); (0xA015, 0xA015); (0xA4F8, 0xA4FD); (0xA60C, 0xA60C); (0xA66F, 0xA672);
  (0xA674, 0xA67D); (0xA67F, 0xA67F); (0xA69C, 0xA69F); (0xA6F0, 0xA6F1); (0xA700, 0xA721);
  (0xA770, 0xA770); (0xA788, 0xA78A); (0xA7F2, 0xA7F4); (0xA7F8, 0xA7F9); (0xA802, 0xA802);
  (0xA806, 0xA806); (0xA80B, 0xA80B); (0xA825, 0xA826); (0xA82C, 0xA82C); (0xA8C4, 0xA8C5);
  (0xA8E0, 0xA8F1); (0xA8FF, 0xA8FF); (0xA926, 0xA92D); (0xA947, 0xA951); (0xA980, 0xA982);
  (0xA9B3, 0xA9B3); (0xA9B6, 0xA9B9); (0xA9BC, 0xA9BD); (0xA9CF, 0xA9CF); (0xA9E5, 0xA9E6);
  (0xAA29, 0xAA2E); (0xAA31, 0xAA32); (0xAA35, 0xAA36); (0xAA43, 0xAA43); (0xAA4C, 0xAA4C);
  (0xAA70, 0xAA70); (0xAA7C, 0xAA7C); (0xAAB0, 0xAAB0); (0xAAB2, 0xAAB4); (0xAAB7, 0xAAB8);
  (0xAABE, 0xAABF); (0xAAC1, 0xAAC1); (0xAADD, 0xAADD); (0xAAEC, 0xAAED); (0xAAF3, 0xAAF4);
  (0xAAF6, 0xAAF6); (0xAB5B, 0xAB5F); (0xAB69, 0xAB6B); (0xABE5, 0xABE5); (0xABE8, 0xABE8);
  (0xABED, 0xABED); (0xFB1E, 0xFB1E); (0xFBB2, 0xFBC2); (0xFE00, 0xFE0F); (0xFE13, 0xFE13);
  (0xFE20, 0xFE2F); (0xFE52, 0xFE52); (0xFE55, 0xFE55); (0xFEFF, 0xFEFF); (0xFF07, 0xFF07);
  (0xFF0E, 0xFF0E); (0xFF1A, 0xFF1A); (0xFF3E, 0xFF3E); (0xFF40, 0xFF40); (0xFF70, 0xFF70);
  (0xFF9E, 0xFF9F); (0xFFE3, 0xFFE3); (0xFFF9, 0xFFFB); (0x101FD, 0x101FD); (0x102E0, 0x102E0);
  (0x10376, 0x1037A); (0x10780, 0x10785); (0x10787, 0x107B0); (0x107B2, 0x107BA);
  (0x10A01, 0x10A03); (0x10A05, 0x10A06); (0x10A0C, 0x10A0F); (0x10A38, 0x10A3A);
  (0x10A3F, 0x10A3F); (0x10AE5, 0x10AE6); (0x10D24, 0x10D27); (0x10EAB, 0x10EAC);
  (0x10F46, 0x10F50); (0x10F82, 0x10F85); (0x11001, 0x11001); (0x11038, 0x11046);
  (0x11070, 0x11070); (0x11073, 0x11074); (0x1107F, 0x11081); (0x110B3, 0x110B6);
  (0x110B9, 0x110BA); (0x110BD, 0x110BD); (0x110C2, 0x110C2); (0x110CD, 0x110CD);
  (0x11100, 0x11102); (0x11127, 0x1112B); (0x1112D, 0x11134); (0x11173, 0x11173);
  (0x11180, 0x11181); (0x111B6, 0x111BE); (0x111C9, 0x111CC); (0x111CF, 0x111CF);
  (0x1122F, 0x11231); (0x11234, 0x11234); (0x11236, 0x11237); (0x1123E, 0x1123E);
  (0x112DF, 0x112DF); (0x112E3, 0x112EA); (0x11300, 0x11301); (0x1133B, 0x1133C);
  (0x11340, 0x11340); (0x11366, 0x1136C); (0x11370, 0x11374); (0x11438, 0x1143F);
  (0x11442, 0x11444); (0x11446, 0x11446); (0x1145E, 0x1145E); (0x114B3, 0x114B8);
  (0x114BA, 0x114BA); (0x114BF, 0x114C0); (0x114C2, 0x114C3); (0x115B2, 0x115B5);
  (0x115BC, 0x115BD); (0x115BF, 0x115C0); (0x115DC, 0x115DD); (0x11633, 0x1163A);
  (0x1163D, 0x1163D); (0x1163F, 0x11640); (0x116AB, 0x116AB); (0x116AD, 0x116AD);
  (0x116B0, 0x116B5); (0x116B7, 0x116B7); (0x1171D, 0x1171F); (0x11722, 0x11725);
  (0x11727, 0x1172B); (0x1182F, 0x11837); (0x11839, 0x1183A); (0x1193B, 0x1193C);
  (0x1193E, 0x1193E); (0x11943, 0x11943); (0x119D4, 0x119D7); (0x119DA, 0x119DB);
  (0x119E0, 0x119E0); (0x11A01, 0x11A0A); (0x11A33, 0x11A38); (0x11A3B, 0x11A3E);
  (0x11A47, 0x11A47); (0x11A51, 0x11A56); (0x11A59, 0x11A5B); (0x11A8A, 0x11A96);
  (0x11A98, 0x11A99); (0x11C30, 0x11C36); (0x11C38, 0x11C3D); (0x11C3F, 0x11C3F);
  (0x11C92, 0x11CA7); (0x11CAA, 0x11CB0); (0x11CB2, 0x11CB3); (0x11CB5, 0x11CB6);
  (0x11D31, 0x11D36); (0x11D3A, 0x11D3A); (0x11D3C, 0x11D3D); (0x11D3F, 0x11D45);
  (0x11D47, 0x11D47); (0x11D90, 0x11D91); (0x11D95, 0x11D95); (0x11D97, 0x11D97);
  (0x11EF3, 0x11EF4); (0x13430, 0x13438); (0x16AF0, 0x16AF4); (0x16B30, 0x16B36);
  (0x16B40, 0x16B43); (0x16F4F, 0x16F4F); (0x16F8F, 0x16F9F); (0x16FE0, 0x16FE1);
  (0x16FE3, 0x16FE4); (0x1AFF0, 0x1AFF3); (0x1AFF5, 0x1AFFB); (0x1AFFD, 0x1AFFE);
  (0x1BC9D, 0x1BC9E); (0x1BCA0, 0x1BCA3); (0x1CF00, 0x1CF2D); (0x1CF30, 0x1CF46);
  (0x1D167, 0x1D169); (0x1D173, 0x1D182); (0x1D185, 0x1D18B); (0x1D1AA, 0x1D1AD);
  (0x1D242, 0x1D244); (0x1DA00, 0x1DA36); (0x1DA3B, 0x1DA6C); (0x1DA75, 0x1DA75);
  (0x1DA84, 0x1DA84); (0x1DA9B, 0x1DA9F); (0x1DAA1, 0x1DAAF); (0x1E000, 0x1E006);
  (0x1E008, 0x1E018); (0x1E01B, 0x1E021); (0x1E023, 0x1E024); (0x1E026, 0x1E02A);
  (0x1E130, 0x1E13D); (0x1E2AE, 0x1E2AE); (0x1E2EC, 0x1E2EF); (0x1E8D0, 0x1E8D6);
  (0x1E944, 0x1E94B); (0x1F3FB, 0x1F3FF); (0xE0001, 0xE0001); (0xE0020, 0xE007F);
  (0xE0100, 0xE01EF)
].

(** The code points [str.isprintable] accepts. *)
Definition printable_ranges : list (Z * Z) := [
  (0x20, 0x7E); (0xA1, 0xAC); (0xAE, 0x377); (0x37A, 0x37F); (0x384, 0x38A); (0x38C, 0x38C);
  (0x38E, 0x3A1); (0x3A3, 0x52F); (0x531, 0x556); (0x559, 0x58A); (0x58D, 0x58F); (0x591, 0x5C7);
  (0x5D0, 0x5EA); (0x5EF, 0x5F4); (0x606, 0x61B); (0x61D, 0x6DC); (0x6DE, 0x70D); (0x710, 0x74A);
  (0x74D, 0x7B1); (0x7C0, 0x7FA); (0x7FD, 0x82D); (0x830, 0x83E); (0x840, 0x85B); (0x85E, 0x85E);
  (0x860, 0x86A); (0x870, 0x88E); (0x898, 0x8E1); (0x8E3, 0x983); (0x985, 0x98C); (0x98F, 0x990);
  (0x993, 0x9A8); (0x9AA, 0x9B0); (0x9B2, 0x9B2); (0x9B6, 0x9B9); (0x9BC, 0x9C4); (0x9C7, 0x9C8);
  (0x9CB, 0x9CE); (0x9D7, 0x9D7); (0x9DC, 0x9DD); (0x9DF, 0x9E3); (0x9E6, 0x9FE); (0xA01, 0xA03);
  (0xA05, 0xA0A); (0xA0F, 0xA10); (0xA13, 0xA28); (0xA2A, 0xA30); (0xA32, 0xA33); (0xA35, 0xA36);
  (0xA38, 0xA39); (0xA3C, 0xA3C); (0xA3E, 0xA42); (0xA47, 0xA48); (0xA4B, 0xA4D); (0xA51, 0xA51);
  (0xA59, 0xA5C); (0xA5E, 0xA5E); (0xA66, 0xA76); (0xA81, 0xA83); (0xA85, 0xA8D); (0xA8F, 0xA91);
  (0xA93, 0xAA8); (0xAAA, 0xAB0); (0xAB2, 0xAB3); (0xAB5, 0xAB9); (0xABC, 0xAC5); (0xAC7, 0xAC9);
  (0xACB, 0xACD); (0xAD0, 0xAD0); (0xAE0, 0xAE3); (0xAE6, 0xAF1); (0xAF9, 0xAFF); (0xB01, 0xB03);
  (0xB05, 0xB0C); (0xB0F, 0xB10); (0xB13, 0xB28); (0xB2A, 0xB30); (0xB32, 0xB33); (0xB35, 0xB39);
  (0xB3C, 0xB44); (0xB47, 0xB48); (0xB4B, 0xB4D); (0xB55, 0xB57); (0xB5C, 0xB5D); (0xB5F, 0xB63);
  (0xB66, 0xB77); (0xB82, 0xB83); (0xB85, 0xB8A); (0xB8E, 0xB90); (0xB92, 0xB95); (0xB99, 0xB9A);
  (0xB9C, 0xB9C); (0xB9E, 0xB9F); (0xBA3, 0xBA4); (0xBA8, 0xBAA); (0xBAE, 0xBB9); (0xBBE, 0xBC2);
  (0xBC6, 0xBC8); (0xBCA, 0xBCD); (0xBD0, 0xBD0); (0xBD7, 0xBD7); (0xBE6, 0xBFA); (0xC00, 0xC0C);
  (0xC0E, 0xC10); (0xC12, 0xC28); (0xC2A, 0xC39); (0xC3C, 0xC44); (0xC46, 0xC48); (0xC4A, 0xC4D);
  (0xC55, 0xC56); (0xC58, 0xC5A); (0xC5D, 0xC5D); (0xC60, 0xC63); (0xC66, 0xC6F); (0xC77, 0xC8C);
  (0xC8E, 0xC90); (0xC92, 0xCA8); (0xCAA, 0xCB3); (0xCB5, 0xCB9); (0xCBC, 0xCC4); (0xCC6, 0xCC8);
  (0xCCA, 0xCCD); (0xCD5, 0xCD6); (0xCDD, 0xCDE); (0xCE0, 0xCE3); (0xCE6, 0xCEF); (0xCF1, 0xCF2);
  (0xD00, 0xD0C); (0xD0E, 0xD10); (0xD12, 0xD44); (0xD46, 0xD48); (0xD4A, 0xD4F); (0xD54, 0xD63);
  (0xD66, 0xD7F); (0xD81, 0xD83); (0xD85, 0xD96); (0xD9A, 0xDB1); (0xDB3, 0xDBB); (0xDBD, 0xDBD);
  (0xDC0, 0xDC6); (0xDCA, 0xDCA); (0xDCF, 0xDD4); (0xDD6, 0xDD6); (0xDD8, 0xDDF); (0xDE6, 0xDEF);
  (0xDF2, 0xDF4); (0xE01, 0xE3A); (0xE3F, 0xE5B); (0xE81, 0xE82); (0xE84, 0xE84); (0xE86, 0xE8A);
  (0xE8C, 0xEA3); (0xEA5, 0xEA5); (0xEA7, 0xEBD); (0xEC0, 0xEC4); (0xEC6, 0xEC6); (0xEC8, 0xECD);
  (0xED0, 0xED9); (0xEDC, 0xEDF); (0xF00, 0xF47); (0xF49, 0xF6C); (0xF71, 0xF97); (0xF99, 0xFBC);
  (0xFBE, 0xFCC); (0xFCE, 0xFDA); (0x1000, 0x10C5); (0x10C7, 0x10C7); (0x10CD, 0x10CD);
  (0x10D0, 0x1248); (0x124A, 0x124D); (0x1250, 0x1256); (0x1258, 0x1258); (0x125A, 0x125D);
  (0x1260, 0x1288); (0x128A, 0x128D); (0x1290, 0x12B0); (0x12B2, 0x12B5); (0x12B8, 0x12BE);
  (0x12C0, 0x12C0); (0x12C2, 0x12C5); (0x12C8, 0x12D6); (0x12D8, 0x1310); (0x1312, 0x1315);
  (0x1318, 0x135A); (0x135D, 0x137C); (0x1380, 0x1399); (0x13A0, 0x13F5); (0x13F8, 0x13FD);
  (0x1400, 0x167F); (0x1681, 0x169C); (0x16A0, 0x16F8); (0x1700, 0x1715); (0x171F, 0x1736);
  (0x1740, 0x1753); (0x1760, 0x176C); (0x176E, 0x1770); (0x1772, 0x1773); (0x1780, 0x17DD);
  (0x17E0, 0x17E9); (0x17F0, 0x17F9); (0x1800, 0x180D); (0x180F, 0x1819); (0x1820, 0x1878);
  (0x1880, 0x18AA); (0x18B0, 0x18F5); (0x1900, 0x191E); (0x1920, 0x192B); (0x1930, 0x193B);
  (0x1940, 0x1940); (0x1944, 0x196D); (0x1970, 0x1974); (0x1980, 0x19AB); (0x19B0, 0x19C9);
  (0x19D0, 0x19DA); (0x19DE, 0x1A1B); (0x1A1E, 0x1A5E); (0x1A60, 0x1A7C); (0x1A7F, 0x1A89);
  (0x1A90, 0x1A99); (0x1AA0, 0x1AAD); (0x1AB0, 0x1ACE); (0x1B00, 0x1B4C); (0x1B50, 0x1B7E);
  (0x1B80, 0x1BF3); (0x1BFC, 0x1C37); (0x1C3B, 0x1C49); (0x1C4D, 0x1C88); (0x1C90, 0x1CBA);
  (0x1CBD, 0x1CC7); (0x1CD0, 0x1CFA); (0x1D00, 0x1F15); (0x1F18, 0x1F1D); (0x1F20, 0x1F45);
  (0x1F48, 0x1F4D); (0x1F50, 0x1F57); (0x1F59, 0x1F59); (0x1F5B, 0x1F5B); (0x1F5D, 0x1F5D);
  (0x1F5F, 0x1F7D); (0x1F80, 0x1FB4); (0x1FB6, 0x1FC4); (0x1FC6, 0x1FD3); (0x1FD6, 0x1FDB);
  (0x1FDD, 0x1FEF); (0x1FF2, 0x1FF4); (0x1FF6, 0x1FFE); (0x2010, 0x2027); (0x2030, 0x205E);
  (0x2070, 0x2071); (0x2074, 0x208E); (0x2090, 0x209C); (0x20A0, 0x20C0); (0x20D0, 0x20F0);
  (0x2100, 0x218B); (0x2190, 0x2426); (0x2440, 0x244A); (0x2460, 0x2B73); (0x2B76, 0x2B95);
  (0x2B97, 0x2CF3); (0x2CF9, 0x2D25); (0x2D27, 0x2D27); (0x2D2D, 0x2D2D); (0x2D30, 0x2D67);
  (0x2D6F, 0x2D70); (0x2D7F, 0x2D96); (0x2DA0, 0x2DA6); (0x2DA8, 0x2DAE); (0x2DB0, 0x2DB6);
  (0x2DB8, 0x2DBE); (0x2DC0, 0x2DC6); (0x2DC8, 0x2DCE); (0x2DD0, 0x2DD6); (0x2DD8, 0x2DDE);
  (0x2DE0, 0x2E5D); (0x2E80, 0x2E99); (0x2E9B, 0x2EF3); (0x2F00, 0x2FD5); (0x2FF0, 0x2FFB);
  (0x3001, 0x303F); (0x3041, 0x3096); (0x3099, 0x30FF); (0x3105, 0x312F); (0x3131, 0x318E);
  (0x3190, 0x31E3); (0x31F0, 0x321E); (0x3220, 0xA48C); (0xA490, 0xA4C6); (0xA4D0, 0xA62B);
  (0xA640, 0xA6F7); (0xA700, 0xA7CA); (0xA7D0, 0xA7D1); (0xA7D3, 0xA7D3); (0xA7D5, 0xA7D9);
  (0xA7F2, 0xA82C); (0xA830, 0xA839); (0xA840, 0xA877); (0xA880, 0xA8C5); (0xA8CE, 0xA8D9);
  (0xA8E0, 0xA953); (0xA95F, 0xA97C); (0xA980, 0xA9CD); (0xA9CF, 0xA9D9); (0xA9DE, 0xA9FE);
  (0xAA00, 0xAA36); (0xAA40, 0xAA4D); (0xAA50, 0xAA59); (0xAA5C, 0xAAC2); (0xAADB, 0xAAF6);
  (0xAB01, 0xAB06); (0xAB09, 0xAB0E); (0xAB11, 0xAB16); (0xAB20, 0xAB26); (0xAB28, 0xAB2E);
  (0xAB30, 0xAB6B); (0xAB70, 0xABED); (0xABF0, 0xABF9); (0xAC00, 0xD7A3); (0xD7B0, 0xD7C6);
  (0xD7CB, 0xD7FB); (0xF900, 0xFA6D); (0xFA70, 0xFAD9); (0xFB00, 0xFB06); (0xFB13, 0xFB17);
  (0xFB1D, 0xFB36); (0xFB38, 0xFB3C); (0xFB3E, 0xFB3E); (0xFB40, 0xFB41); (0xFB43, 0xFB44);
  (0xFB46, 0xFBC2); (0xFBD3, 0xFD8F); (0xFD92, 0xFDC7); (0xFDCF, 0xFDCF); (0xFDF0, 0xFE19);
  (0xFE20, 0xFE52); (0xFE54, 0xFE66); (0xFE68, 0xFE6B); (0xFE70, 0xFE74); (0xFE76, 0xFEFC);
  (0xFF01, 0xFFBE); (0xFFC2, 0xFFC7); (0xFFCA, 0xFFCF); (0xFFD2, 0xFFD7); (0xFFDA, 0xFFDC);
  (0xFFE0, 0xFFE6); (0xFFE8, 0xFFEE); (0xFFFC, 0xFFFD); (0x10000, 0x1000B); (0x1000D, 0x10026);
  (0x10028, 0x1003A); (0x1003C, 0x1003D); (0x1003F, 0x1004D); (0x10050, 0x1005D);
  (0x10080, 0x100FA); (0x10100, 0x10102); (0x10107, 0x10133); (0x10137, 0x1018E);
  (0x10190, 0x1019C); (0x101A0, 0x101A0); (0x101D0, 0x101FD); (0x10280, 0x1029C);
  (0x102A0, 0x102D0); (0x102E0, 0x102FB); (0x10300, 0x10323); (0x1032D, 0x1034A);
  (0x10350, 0x1037A); (0x10380, 0x1039D); (0x1039F, 0x103C3); (0x103C8, 0x103D5);
  (0x10400, 0x1049D); (0x104A0, 0x104A9); (0x104B0, 0x104D3); (0x104D8, 0x104FB);
  (0x10500, 0x10527); (0x10530, 0x10563); (0x1056F, 0x1057A); (0x1057C, 0x1058A);
  (0x1058C, 0x10592); (0x10594, 0x10595); (0x10597, 0x105A1); (0x105A3, 0x105B1);
  (0x105B3, 0x105B9); (0x105BB, 0x105BC); (0x10600, 0x10736); (0x10740, 0x10755);
  (0x10760, 0x10767); (0x10780, 0x10785); (0x10787, 0x107B0); (0x107B2, 0x107BA);
  (0x10800, 0x10805); (0x10808, 0x10808); (0x1080A, 0x10835); (0x10837, 0x10838);
  (0x1083C, 0x1083C); (0x1083F, 0x10855); (0x10857, 0x1089E); (0x108A7, 0x108AF);
  (0x108E0, 0x108F2); (0x108F4, 0x108F5); (0x108FB, 0x1091B); (0x1091F, 0x10939);
  (0x1093F, 0x1093F); (0x10980, 0x109B7); (0x109BC, 0x109CF); (0x109D2, 0x10A03);
  (0x10A05, 0x10A06); (0x10A0C, 0x10A13); (0x10A15, 0x10A17); (0x10A19, 0x10A35);
  (0x10A38, 0x10A3A); (0x10A3F, 0x10A48); (0x10A50, 0x10A58); (0x10A60, 0x10A9F);
  (0x10AC0, 0x10AE6); (0x10AEB, 0x10AF6); (0x10B00, 0x10B35); (0x10B39, 0x10B55);
  (0x10B58, 0x10B72); (0x10B78, 0x10B91); (0x10B99, 0x10B9C); (0x10BA9, 0x10BAF);
  (0x10C00, 0x10C48); (0x10C80, 0x10CB2); (0x10CC0, 0x10CF2); (0x10CFA, 0x10D27);
  (0x10D30, 0x10D39); (0x10E60, 0x10E7E); (0x10E80, 0x10EA9); (0x10EAB, 0x10EAD);
  (0x10EB0, 0x10EB1); (0x10F00, 0x10F27); (0x10F30, 0x10F59); (0x10F70, 0x10F89);
  (0x10FB0, 0x10FCB); (0x10FE0, 0x10FF6); (0x11000, 0x1104D); (0x11052, 0x11075);
  (0x1107F, 0x110BC); (0x110BE, 0x110C2); (0x110D0, 0x110E8); (0x110F0, 0x110F9);
  (0x11100, 0x11134); (0x11136, 0x11147); (0x11150, 0x11176); (0x11180, 0x111DF);
  (0x111E1, 0x111F4); (0x11200, 0x11211); (0x11213, 0x1123E); (0x11280, 0x11286);
  (0x11288, 0x11288); (0x1128A, 0x1128D); (0x1128F, 0x1129D); (0x1129F, 0x112A9);
  (0x112B0, 0x112EA); (0x112F0, 0x112F9); (0x11300, 0x11303); (0x11305, 0x1130C);
  (0x1130F, 0x11310); (0x11313, 0x11328); (0x1132A, 0x11330); (0x11332, 0x11333);
  (0x11335, 0x11339); (0x1133B, 0x11344); (0x11347, 0x11348); (0x1134B, 0x1134D);
  (0x11350, 0x11350); (0x11357, 0x11357); (0x1135D, 0x11363); (0x11366, 0x1136C);
  (0x11370, 0x11374); (0x11400, 0x1145B); (0x1145D, 0x11461); (0x11480, 0x114C7);
  (0x114D0, 0x114D9); (0x11580, 0x115B5); (0x115B8, 0x115DD); (0x11600, 0x11644);
  (0x11650, 0x11659); (0x11660, 0x1166C); (0x11680, 0x116B9); (0x116C0, 0x116C9);
  (0x11700, 0x1171A); (0x1171D, 0x1172B); (0x11730, 0x11746); (0x11800, 0x1183B);
  (0x118A0, 0x118F2); (0x118FF, 0x11906); (0x11909, 0x11909); (0x1190C, 0x11913);
  (0x11915, 0x11916); (0x11918, 0x11935); (0x11937, 0x11938); (0x1193B, 0x11946);
  (0x11950, 0x11959); (0x119A0, 0x119A7); (0x119AA, 0x119D7); (0x119DA, 0x119E4);
  (0x11A00, 0x11A47); (0x11A50, 0x11AA2); (0x11AB0, 0x11AF8); (0x11C00, 0x11C08);
  (0x11C0A, 0x11C36); (0x11C38, 0x11C45); (0x11C50, 0x11C6C); (0x11C70, 0x11C8F);
  (0x11C92, 0x11CA7); (0x11CA9, 0x11CB6); (0x11D00, 0x11D06); (0x11D08, 0x11D09);
  (0x11D0B, 0x11D36); (0x11D3A, 0x11D3A); (0x11D3C, 0x11D3D); (0x11D3F, 0x11D47);
  (0x11D50, 0x11D59); (0x11D60, 0x11D65); (0x11D67, 0x11D68); (0x11D6A, 0x11D8E);
  (0x11D90, 0x11D91); (0x11D93, 0x11D98); (0x11DA0, 0x11DA9); (0x11EE0, 0x11EF8);
  (0x11FB0, 0x11FB0); (0x11FC0, 0x11FF1); (0x11FFF, 0x12399); (0x12400, 0x1246E);
  (0x12470, 0x12474); (0x12480, 0x12543); (0x12F90, 0x12FF2); (0x13000, 0x1342E);
  (0x14400, 0x14646); (0x16800, 0x16A38); (0x16A40, 0x16A5E); (0x16A60, 0x16A69);
  (0x16A6E, 0x16ABE); (0x16AC0, 0x16AC9); (0x16AD0, 0x16AED); (0x16AF0, 0x16AF5);
  (0x16B00, 0x16B45); (0x16B50, 0x16B59); (0x16B5B, 0x16B61); (0x16B63, 0x16B77);
  (0x16B7D, 0x16B8F); (0x16E40, 0x16E9A); (0x16F00, 0x16F4A); (0x16F4F, 0x16F87);
  (0x16F8F, 0x16F9F); (0x16FE0, 0x16FE4); (0x16FF0, 0x16FF1); (0x17000, 0x187F7);
  (0x18800, 0x18CD5); (0x18D00, 0x18D08); (0x1AFF0, 0x1AFF3); (0x1AFF5, 0x1AFFB);
  (0x1AFFD, 0x1AFFE); (0x1B000, 0x1B122); (0x1B150, 0x1B152); (0x1B164, 0x1B167);
  (0x1B170, 0x1B2FB); (0x1BC00, 0x1BC6A); (0x1BC70, 0x1BC7C); (0x1BC80, 0x1BC88);
  (0x1BC90, 0x1BC99); (0x1BC9C, 0x1BC9F); (0x1CF00, 0x1CF2D); (0x1CF30, 0x1CF46);
  (0x1CF50, 0x1CFC3); (0x1D000, 0x1D0F5); (0x1D100, 0x1D126); (0x1D129, 0x1D172);
  (0x1D17B, 0x1D1EA); (0x1D200, 0x1D245); (0x1D2E0, 0x1D2F3); (0x1D300, 0x1D356);
  (0x1D360, 0x1D378); (0x1D400, 0x1D454); (0x1D456, 0x1D49C); (0x1D49E, 0x1D49F);
  (0x1D4A2, 0x1D4A2); (0x1D4A5, 0x1D4A6); (0x1D4A9, 0x1D4AC); (0x1D4AE, 0x1D4B9);
  (0x1D4BB, 0x1D4BB); (0x1D4BD, 0x1D4C3); (0x1D4C5, 0x1D505); (0x1D507, 0x1D50A);
  (0x1D50D, 0x1D514); (0x1D516, 0x1D51C); (0x1D51E, 0x1D539); (0x1D53B, 0x1D53E);
  (0x1D540, 0x1D544); (0x1D546, 0x1D546); (0x1D54A, 0x1D550); (0x1D552, 0x1D6A5);
  (0x1D6A8, 0x1D7CB); (0x1D7CE, 0x1DA8B); (0x1DA9B, 0x1DA9F); (0x1DAA1, 0x1DAAF);
  (0x1DF00, 0x1DF1E); (0x1E000, 0x1E006); (0x1E008, 0x1E018); (0x1E01B, 0x1E021);
  (0x1E023, 0x1E024); (0x1E026, 0x1E02A); (0x1E100, 0x1E12C); (0x1E130, 0x1E13D);
  (0x1E140, 0x1E149); (0x1E14E, 0x1E14F); (0x1E290, 0x1E2AE); (0x1E2C0, 0x1E2F9);
  (0x1E2FF, 0x1E2FF); (0x1E7E0, 0x1E7E6); (0x1E7E8, 0x1E7EB); (0x1E7ED, 0x1E7EE);
  (0x1E7F0, 0x1E7FE); (0x1E800, 0x1E8C4); (0x1E8C7, 0x1E8D6); (0x1E900, 0x1E94B);
  (0x1E950, 0x1E959); (0x1E95E, 0x1E95F); (0x1EC71, 0x1ECB4); (0x1ED01, 0x1ED3D);
  (0x1EE00, 0x1EE03); (0x1EE05, 0x1EE1F); (0x1EE21, 0x1EE22); (0x1EE24, 0x1EE24);
  (0x1EE27, 0x1EE27); (0x1EE29, 0x1EE32); (0x1EE34, 0x1EE37); (0x1EE39, 0x1EE39);
  (0x1EE3B, 0x1EE3B); (0x1EE42, 0x1EE42); (0x1EE47, 0x1EE47); (0x1EE49, 0x1EE49);
  (0x1EE4B, 0x1EE4B); (0x1EE4D, 0x1EE4F); (0x1EE51, 0x1EE52); (0x1EE54, 0x1EE54);
  (0x1EE57, 0x1EE57); (0x1EE59, 0x1EE59); (0x1EE5B, 0x1EE5B); (0x1EE5D, 0x1EE5D);
  (0x1EE5F, 0x1EE5F); (0x1EE61, 0x1EE62); (0x1EE64, 0x1EE64); (0x1EE67, 0x1EE6A);
  (0x1EE6C, 0x1EE72); (0x1EE74, 0x1EE77); (0x1EE79, 0x1EE7C); (0x1EE7E, 0x1EE7E);
  (0x1EE80, 0x1EE89); (0x1EE8B, 0x1EE9B); (0x1EEA1, 0x1EEA3); (0x1EEA5, 0x1EEA9);
  (0x1EEAB, 0x1EEBB); (0x1EEF0, 0x1EEF1); (0x1F000, 0x1F02B); (0x1F030, 0x1F093);
  (0x1F0A0, 0x1F0AE); (0x1F0B1, 0x1F0BF); (0x1F0C1, 0x1F0CF); (0x1F0D1, 0x1F0F5);
  (0x1F100, 0x1F1AD); (0x1F1E6, 0x1F202); (0x1F210, 0x1F23B); (0x1F240, 0x1F248);
  (0x1F250, 0x1F251); (0x1F260, 0x1F265); (0x1F300, 0x1F6D7); (0x1F6DD, 0x1F6EC);
  (0x1F6F0, 0x1F6FC); (0x1F700, 0x1F773); (0x1F780, 0x1F7D8); (0x1F7E0, 0x1F7EB);
  (0x1F7F0, 0x1F7F0); (0x1F800, 0x1F80B); (0x1F810, 0x1F847); (0x1F850, 0x1F859);
  (0x1F860, 0x1F887); (0x1F890, 0x1F8AD); (0x1F8B0, 0x1F8B1); (0x1F900, 0x1FA53);
  (0x1FA60, 0x1FA6D); (0x1FA70, 0x1FA74); (0x1FA78, 0x1FA7C); (0x1FA80, 0x1FA86);
  (0x1FA90, 0x1FAAC); (0x1FAB0, 0x1FABA); (0x1FAC0, 0x1FAC5); (0x1FAD0, 0x1FAD9);
  (0x1FAE0, 0x1FAE7); (0x1FAF0, 0x1FAF6); (0x1FB00, 0x1FB92); (0x1FB94, 0x1FBCA);
  (0x1FBF0, 0x1FBF9); (0x20000, 0x2A6DF); (0x2A700, 0x2B738); (0x2B740, 0x2B81D);
  (0x2B820, 0x2CEA1); (0x2CEB0, 0x2EBE0); (0x2F800, 0x2FA1D); (0x30000, 0x3134A);
  (0xE0100, 0xE01EF)
].

Definition in_ranges (t : list (Z * Z)) (c : Z) : bool :=
  existsb (fun r => (fst r <=? c) && (c <=? snd r)) t.

Definition is_cased (c : Z) : bool := in_ranges cased_ranges c.
Definition is_case_ignorable (c : Z) : bool := in_ranges case_ignorable_ranges c.
Definition is_printable (c : Z) : bool := in_ranges printable_ranges c.

(** The value of a byte, and its low six bits (the payload of a UTF-8
    continuation byte). *)
Definition byte_of (a : ascii) : Z := Z.of_nat (nat_of_ascii a).
Definition payload (a : ascii) : Z := Z.land (byte_of a) 0x3F.
Definition in_byte_range (lo hi : Z) (a : ascii) : bool := (lo <=? byte_of a) && (byte_of a <=? hi).

(** [bytes.decode("utf-8", "surrogateescape")] ([os.fsdecode]): a
    well-formed sequence gives its code point; any other byte [b] gives
    the lone surrogate [0xDC00 + b], and decoding goes on at the next
    byte. *)
Fixpoint decode (s : string) : list Z :=
  match s with
  | EmptyString => []
  | String a r =>
      let b := byte_of a in
      if b <? 0x80 then b :: decode r
      else if (0xC2 <=? b) && (b <=? 0xDF) then
        match r with
        | String a1 r1 =>
            if in_byte_range 0x80 0xBF a1
            then Z.lor (Z.shiftl (Z.land b 0x1F) 6) (payload a1) :: decode r1
            else (0xDC00 + b) :: decode r
        | EmptyString => [0xDC00 + b]
        end
      else if (0xE0 <=? b) && (b <=? 0xEF) then
        let lo := if b =? 0xE0 then 0xA0 else 0x80 in
        let hi := if b =? 0xED then 0x9F else 0xBF in
        match r with
        | String a1 (String a2 r2) =>
            if in_byte_range lo hi a1 && in_byte_range 0x80 0xBF a2
            then Z.lor (Z.shiftl (Z.land b 0x0F) 12)
                   (Z.lor (Z.shiftl (payload a1) 6) (payload a2)) :: decode r2
            else (0xDC00 + b) :: decode r
        | _ => (0xDC00 + b) :: decode r
        end
      else if (0xF0 <=? b) && (b <=? 0xF4) then
        let lo := if b =? 0xF0 then 0x90 else 0x80 in
        let hi := if b =? 0xF4 then 0x8F else 0xBF in
        match r with
        | String a1 (String a2 (String a3 r3)) =>
            if in_byte_range lo hi a1 && in_byte_range 0x80 0xBF a2
               && in_byte_range 0x80 0xBF a3
            then Z.lor (Z.shiftl (Z.land b 0x07) 18)
                   (Z.lor (Z.shiftl (payload a1) 12)
                      (Z.lor (Z.shiftl (payload a2) 6) (payload a3))) :: decode r3
            else (0xDC00 + b) :: decode r
        | _ => (0xDC00 + b) :: decode r
        end
      else (0xDC00 + b) :: decode r
  end.

Definition char_of (n : Z) : ascii := ascii_of_nat (Z.to_nat n).

(** The UTF-8 bytes of a code point. *)
Definition utf8 (c : Z) : string :=
  if c <? 0x80 then String (char_of c) EmptyString
  else if c <? 0x800 then
    String (char_of (0xC0 + Z.shiftr c 6))
      (String (char_of (0x80 + Z.land c 0x3F)) EmptyString)
  else if c <? 0x10000 then
    String (char_of (0xE0 + Z.shiftr c 12))
      (String (char_of (0x80 + Z.land (Z.shiftr c 6) 0x3F))
         (String (char_of (0x80 + Z.land c 0x3F)) EmptyString))
  else
    String (char_of (0xF0 + Z.shiftr c 18))
      (String (char_of (0x80 + Z.land (Z.shiftr c 12) 0x3F))
         (String (char_of (0x80 + Z.land (Z.shiftr c 6) 0x3F))
            (String (char_of (0x80 + Z.land c 0x3F)) EmptyString))).

Definition encode (cs : list Z) : string :=
  fold_right (fun c s => String.append (utf8 c) s) EmptyString cs.

(** The lower-case mapping of a code point other than U+03A3
    ([_PyUnicode_ToLowerFull]); U+0130 is the one that maps to two. *)
Definition lower_full (c : Z) : list Z :=
  if c =? 0x130 then [0x69; 0x307]
  else match List.find (fun '(lo, hi, step, _) =>
                          (lo <=? c) && (c <=? hi) && (Z.modulo (c - lo) step =? 0))
                       lower_runs with
       | Some (_, _, _, delta) => [c + delta]
       | None => [c]
       end.

(** The first code point of [l] that is not case-ignorable. *)
Fixpoint skip_case_ignorable (l : list Z) : option Z :=
  match l with
  | [] => None
  | c :: l' => if is_case_ignorable c then skip_case_ignorable l' else Some c
  end.

Definition cased_at (o : option Z) : bool :=
  match o with Some c => is_cased c | None => false end.

(** [handle_capital_sigma]: U+03A3 lowers to the final U+03C2 when,
    case-ignorable code points skipped, a cased one comes before it and
    none after it; [before] is the text before it, nearest first. *)
Definition final_sigma (before after : list Z) : bool :=
  cased_at (skip_case_ignorable before) && negb (cased_at (skip_case_ignorable after)).

Fixpoint lower_from (before s : list Z) : list Z :=
  match s with
  | [] => []
  | c :: s' =>
      (if c =? 0x3A3 then [if final_sigma before s' then 0x3C2 else 0x3C3]
       else lower_full c) ++ lower_from (c :: before) s'
  end.

(** [str.lower()]. *)
Definition lower (s : list Z) : list Z := lower_from [] s.

(** Python's order on [str]: lexicographic on the code points. *)
Fixpoint str_leb (a b : list Z) : bool :=
  match a, b with
  | [], _ => true
  | _ :: _, [] => false
  | x :: a', y :: b' => (x <? y) || ((x =? y) && str_leb a' b')
  end.

Definition hex_digit (n : Z) : Z := if n <? 10 then 0x30 + n else 0x57 + n.

(** The last [k] hexadecimal digits of [c], in lower case. *)
Fixpoint hex (k : nat) (c : Z) : list Z :=
  match k with
  | O => []
  | S k' => hex k' (Z.shiftr c 4) ++ [hex_digit (Z.land c 0xF)]
  end.

(** One code point as [repr] writes it, [q] being the quote in use. *)
Definition repr_char (q c : Z) : list Z :=
  if (c =? q) || (c =? 0x5C) then [0x5C; c]
  else if c =? 0x09 then [0x5C; 0x74]
  else if c =? 0x0A then [0x5C; 0x6E]
  else if c =? 0x0D then [0x5C; 0x72]
  else if (c <? 0x20) || (c =? 0x7F) then [0x5C; 0x78] ++ hex 2 c
  else if c <? 0x7F then [c]
  else if is_printable c then [c]
  else if c <=? 0xFF then [0x5C; 0x78] ++ hex 2 c
  else if c <=? 0xFFFF then [0x5C; 0x75] ++ hex 4 c
  else [0x5C; 0x55] ++ hex 8 c.

(** [repr(s)] of a [str] ([unicode_repr]): in single quotes, unless [s]
    holds a single quote and no double one. *)
Definition repr (s : list Z) : list Z :=
  let q := if existsb (Z.eqb 0x27) s && negb (existsb (Z.eqb 0x22) s) then 0x22 else 0x27 in
  q :: flat_map (repr_char q) s ++ [q].

End Text.

(* ================================================================== *)
(** ** Errors *)

(** The [OSError]s the modelled calls raise, by [errno]. *)
Inductive OSError :=
  | FileNotFoundError   (* ENOENT *)
  | FileExistsError     (* EEXIST *)
  | NotADirectoryError  (* ENOTDIR *)
  | IsADirectoryError   (* EISDIR *)
  | NameTooLong.        (* ENAMETOOLONG, a plain [OSError] *)

Definition errno (e : OSError) : string :=
  match e with
  | FileNotFoundError => "2"
  | FileExistsError => "17"
  | NotADirectoryError => "20"
  | IsADirectoryError => "21"
  | NameTooLong => "36"
  end.

(** [os.strerror(errno)] (glibc). *)
Definition strerror (e : OSError) : string :=
  match e with
  | FileNotFoundError => "No such file or directory"
  | FileExistsError => "File exists"
  | NotADirectoryError => "Not a directory"
  | IsADirectoryError => "Is a directory"
  | NameTooLong => "File name too long"
  end.

(** The exceptions of the standard library the program meets: the
    [ValueError] of a path with a NUL byte, and an [OSError] with the path
    it was raised for. *)
Inductive PyError :=
  | ValueError (msg : string)
  | OSErr (e : OSError) (filename : list string).

Definition embedded_null := ValueError "embedded null byte".

(** [str(p)] of an absolute path, as bytes. *)
Definition path_str (p : list string) : string :=
  match p with
  | [] => "/"
  | _ => String.concat "" (map (String.append "/") p)
  end.

(** [str(e)]: an [OSError] with a filename reads
    [[Errno N] strerror: repr(filename)]. *)
Definition py_str (e : PyError) : string :=
  match e with
  | ValueError msg => msg
  | OSErr o p =>
      "[Errno " ++ errno o ++ "] " ++ strerror o ++ ": "
        ++ encode (repr (decode (path_str p)))
  end.

(** What an endpoint raises: [fastapi.HTTPException(status_code, detail)]
    or an exception it lets through, which the server answers with 500
    ["Internal Server Error"]. *)
Inductive Raised :=
  | HTTPExc (status_code : Z) (detail : string)
  | PyExc (e : PyError).

Definition invalid_path := HTTPExc 400 "Invalid path".

(** [except Exception as e: raise HTTPException(500, str(e))] after
    [except HTTPException: raise]. *)
Definition catch_500 (e : Raised) : Raised :=
  match e with
  | HTTPExc _ _ => e
  | PyExc pe => HTTPExc 500 (py_str pe)
  end.

Fixpoint has_nul (s : string) : bool :=
  match s with
  | EmptyString => false
  | String c rest => Ascii.eqb c "000"%char || has_nul rest
  end.

(** [safe_path(subpath)], with [PLUGINS_PATH] as the parameter [root].
    [resolve()] ([os.path.realpath]) calls [os.lstat] on each component
    it enters, which raises [ValueError] on a NUL byte. *)
Definition safe_path (root : Path) (subpath : string) : Raised + Path :=
  if String.eqb subpath "" then inr root
  else
    let clean_path := lstrip_slash subpath in
    let joined := root ++ parts clean_path in
    if existsb has_nul joined then inl (PyExc embedded_null)
    else
    let target := resolve joined in
    if is_prefix (resolve root) target then inr target
    else inl invalid_path.

(* ================================================================== *)
(** ** The filesystem *)

(** A node of the tree: a regular file with its bytes, or a directory.
    Modification times are not modelled. *)
Inductive Node := File (content : list Byte.byte) | Dir.

(** The tree: every existing absolute path mapped to its node. *)
Abbreviation FS := (gmap Path Node).

Definition path_exists (fs : FS) (p : Path) : bool :=
  match fs !! p with Some _ => true | None => false end.

Definition is_dir (fs : FS) (p : Path) : bool :=
  match fs !! p with Some Dir => true | _ => false end.


(** Linux's limits: a component of at most [NAME_MAX] bytes, a path of
    fewer than [PATH_MAX]. *)
Definition NAME_MAX : nat := 255.
Definition PATH_MAX : nat := 4096.
Arguments NAME_MAX : simpl never.
Arguments PATH_MAX : simpl never.

(** Why the lookup of a path absent from the tree fails, [None] when it
    reaches the parent directory and only the last entry is missing (the
    path can then be created).  The path is given reversed, last
    component first.  The lookup walks down from [/]: it fails with
    ENOENT at the first missing directory, ENOTDIR at a file with
    components after it, and ENAMETOOLONG at a component longer than
    [NAME_MAX] it looks up in a directory. *)
Fixpoint missing_rev (fs : FS) (rp : list string) : option OSError :=
  match rp with
  | [] => Some FileNotFoundError
  | c :: rparent =>
      let dir := rev rparent in
      let last_step := if NAME_MAX <? String.length c then Some NameTooLong else None in
      match fs !! dir with
      | Some Dir => last_step
      | Some (File _) => Some NotADirectoryError
      | None =>
          match missing_rev fs rparent with
          | Some e => Some e
          | None => Some FileNotFoundError
          end
      end
  end.

Definition missing_error (fs : FS) (p : Path) : option OSError :=
  if PATH_MAX <=? String.length (path_str p) then Some NameTooLong
  else missing_rev fs (rev p).

(** [os.stat(p)]. *)
Definition stat (fs : FS) (p : Path) : PyError + Node :=
  if existsb has_nul p then inl embedded_null
  else match fs !! p with
       | Some n => inr n
       | None => inl (OSErr (default FileNotFoundError (missing_error fs p)) p)
       end.

(** [pathlib._ignore_error]: the errors [exists()], [is_dir()] and
    [is_file()] read as [False]. *)
Definition ignored (e : OSError) : bool :=
  match e with
  | FileNotFoundError | NotADirectoryError => true
  | _ => false
  end.

(** [Path.exists()], [Path.is_dir()], [Path.is_file()] (Python 3.11):
    [stat()], with [ValueError] and the ignored errors read as [False] and
    the other [OSError]s raised. *)
Definition stat_test (test : Node -> bool) (fs : FS) (p : Path) : Raised + bool :=
  match stat fs p with
  | inr n => inr (test n)
  | inl (ValueError _) => inr false
  | inl (OSErr e q) => if ignored e then inr false else inl (PyExc (OSErr e q))
  end.

Definition Path_exists := stat_test (fun _ => true).
Definition Path_is_dir := stat_test (fun n => match n with Dir => true | File _ => false end).
Definition Path_is_file := stat_test (fun n => match n with File _ => true | Dir => false end).

(** The parent directory of a path. *)
Definition parent (p : Path) : Path := removelast p.

(** [k] is a direct child of [d]. *)
Definition is_child (d k : Path) : bool :=
  match k with
  | [] => false
  | _ => bool_decide (removelast k = d)
  end.

(** [any(target.iterdir())]. *)
Definition has_child (fs : FS) (d : Path) : bool :=
  existsb (fun kv => is_child d kv.1) (map_to_list fs).

(** [Path.write_bytes(content)]: [open(p, "wb")] then write. *)
Definition write_bytes (fs : FS) (p : Path) (content : list Byte.byte)
  : PyError + FS :=
  if existsb has_nul p then inl embedded_null
  else match fs !! p with
       | Some Dir => inl (OSErr IsADirectoryError p)
       | Some (File _) => inr (<[p := File content]> fs)
       | None =>
           match missing_error fs p with
           | Some e => inl (OSErr e p)
           | None => inr (<[p := File content]> fs)
           end
       end.

(** [Path.mkdir()] ([os.mkdir], no parents, [exist_ok=False]). *)
Definition mkdir (fs : FS) (p : Path) : PyError + FS :=
  if existsb has_nul p then inl embedded_null
  else match fs !! p with
       | Some _ => inl (OSErr FileExistsError p)
       | None =>
           match missing_error fs p with
           | Some e => inl (OSErr e p)
           | None => inr (<[p := Dir]> fs)
           end
       end.

(** [Path.unlink()] and [Path.rmdir()] on a path already checked. *)
Definition unlink (fs : FS) (p : Path) : FS := delete p fs.
Definition rmdir (fs : FS) (p : Path) : FS := delete p fs.

(** An endpoint returns its JSON body or raises; it leaves the tree it
    has changed. *)
Abbreviation Handler A := ((Raised + A) * FS)%type.

(* ================================================================== *)
(** ** [upload_file] *)

Record UploadResult := { up_filename : string; up_size : nat }.

(** [upload_file(file, path)]: [filename] is [file.filename] and
    [content] is what [file.read()] returns. *)
Definition upload_file (root : Path) (fs : FS) (filename : string)
    (content : list Byte.byte) (path : string) : Handler UploadResult :=
  if String.eqb filename "" then (inl (HTTPExc 400 "No filename provided"), fs)
  else
  match safe_path root path with
  | inl e => (inl e, fs)
  | inr target_dir =>
    match Path_exists fs target_dir with
    | inl e => (inl e, fs)
    | inr false => (inl (HTTPExc 404 "Directory not found"), fs)
    | inr true =>
    match Path_is_dir fs target_dir with
    | inl e => (inl e, fs)
    | inr false => (inl (HTTPExc 400 "Not a directory"), fs)
    | inr true =>
    let safe_name := py_name filename in
    if String.eqb safe_name "" || starts_with_dot safe_name then
      (inl (HTTPExc 400 "Invalid filename"), fs)
    else
    let file_path := target_dir ++ [safe_name] in
    match write_bytes fs file_path content with
    | inl e => (inl (HTTPExc 500 (py_str e)), fs)
    | inr fs' => (inr {| up_filename := safe_name; up_size := length content |}, fs')
    end
    end
    end
  end.

(* ================================================================== *)
(** ** [create_folder] *)

Definition create_folder (root : Path) (fs : FS) (name path : string)
  : Handler string :=
  match safe_path root path with
  | inl e => (inl e, fs)
  | inr target_dir =>
    match Path_exists fs target_dir with
    | inl e => (inl e, fs)
    | inr false => (inl (HTTPExc 404 "Parent directory not found"), fs)
    | inr true =>
    let safe_name := py_name name in
    if String.eqb safe_name "" || starts_with_dot safe_name then
      (inl (HTTPExc 400 "Invalid folder name"), fs)
    else
    let new_folder := target_dir ++ [safe_name] in
    match Path_exists fs new_folder with
    | inl e => (inl e, fs)
    | inr true => (inl (HTTPExc 400 "Folder already exists"), fs)
    | inr false =>
    match mkdir fs new_folder with
    | inl e => (inl (HTTPExc 500 (py_str e)), fs)
    | inr fs' => (inr safe_name, fs')
    end
    end
    end
  end.

(* ================================================================== *)
(** ** [delete_item] *)

Definition delete_item (root : Path) (fs : FS) (path : string)
  : Handler string :=
  if String.eqb path "" then (inl (HTTPExc 400 "Path required"), fs)
  else
  match safe_path root path with
  | inl e => (inl e, fs)
  | inr target =>
    match Path_exists fs target with
    | inl e => (inl e, fs)
    | inr false => (inl (HTTPExc 404 "Item not found"), fs)
    | inr true =>
    if bool_decide (resolve target = resolve root) then
      (inl (HTTPExc 400 "Cannot delete root directory"), fs)
    else
    match Path_is_file fs target with
    | inl e => (inl (catch_500 e), fs)
    | inr true => (inr path, unlink fs target)
    | inr false =>
    match Path_is_dir fs target with
    | inl e => (inl (catch_500 e), fs)
    | inr true =>
        if has_child fs target then (inl (HTTPExc 400 "Folder is not empty"), fs)
        else (inr path, rmdir fs target)
    | inr false => (inr path, fs)
    end
    end
    end
  end.

(* ================================================================== *)
(** ** [list_files] *)

Record Item := { it_name : string; it_type : string; it_size : option nat }.

Record Breadcrumb := { bc_name : string; bc_path : string }.

Record Listing :=
  { ls_path : string; ls_breadcrumbs : list Breadcrumb; ls_items : list Item }.

(** One entry of [items], from [item.stat()], [item.is_dir()] and
    [item.is_file()] (the last two agree with the [stat()] before them). *)
Definition make_item (fs : FS) (dir : Path) (name : string) : PyError + Item :=
  match stat fs (dir ++ [name]) with
  | inl e => inl e
  | inr Dir => inr {| it_name := name; it_type := "folder"; it_size := None |}
  | inr (File c) =>
      inr {| it_name := name; it_type := "file"; it_size := Some (length c) |}
  end.

Fixpoint make_items (fs : FS) (dir : Path) (names : list string)
  : PyError + list Item :=
  match names with
  | [] => inr []
  | n :: ns =>
      match make_item fs dir n with
      | inl e => inl e
      | inr it => match make_items fs dir ns with
                  | inl e => inl e
                  | inr its => inr (it :: its)
                  end
      end
  end.

(** [key=lambda x: (0 if x["type"] == "folder" else 1, x["name"].lower())],
    the name being the [str] [os.fsdecode] gives. *)
Definition sort_key (x : Item) : nat * list Z :=
  (if String.eqb (it_type x) "folder" then 0 else 1, lower (decode (it_name x))).

(** Python's tuple order on the keys: [key(a) <= key(b)]. *)
Definition key_le (a b : Item) : bool :=
  let '(r1, s1) := sort_key a in
  let '(r2, s2) := sort_key b in
  (r1 <? r2) || ((r1 =? r2) && str_leb s1 s2).

(** [list.sort(key=...)] is a stable sort; a stable insertion sort gives
    the same list. An element is put before the first one it is not
    above, so equal keys keep their input order. *)
Fixpoint insert_item (x : Item) (l : list Item) : list Item :=
  match l with
  | [] => [x]
  | y :: l' => if key_le x y then x :: y :: l' else y :: insert_item x l'
  end.

Fixpoint sort_items (l : list Item) : list Item :=
  match l with
  | [] => []
  | x :: l' => insert_item x (sort_items l')
  end.

(** [target.relative_to(PLUGINS_PATH.resolve())], on a target that is
    below the root. *)
Definition relative_to (target base : Path) : Path := drop (length base) target.

Definition breadcrumbs (rel : Path) : list Breadcrumb :=
  imap (fun i part => {| bc_name := part;
                         bc_path := String.concat "/" (take (S i) rel) |}) rel.

Section Listing.

(** [target.iterdir()]: the names of the children of a directory in the
    order the operating system yields them. *)
Variable iterdir : FS -> Path -> list string.

(** The body of the [try] block. *)
Definition list_files_body (root : Path) (fs : FS) (path : string) : Raised + Listing :=
  match safe_path root path with
  | inl e => inl e
  | inr target =>
    match Path_exists fs target with
    | inl e => inl e
    | inr false => inl (HTTPExc 404 "Directory not found")
    | inr true =>
    match Path_is_dir fs target with
    | inl e => inl e
    | inr false => inl (HTTPExc 400 "Not a directory")
    | inr true =>
    match make_items fs target (iterdir fs target) with
    | inl e => inl (PyExc e)
    | inr items =>
      let items := sort_items items in
      let rel_path := relative_to target (resolve root) in
      inr {| ls_path := String.concat "/" rel_path;
             ls_breadcrumbs := breadcrumbs rel_path;
             ls_items := items |}
    end
    end
    end
  end.

Definition list_files (root : Path) (fs : FS) (path : string) : Handler Listing :=
  match list_files_body root fs path with
  | inl e => (inl (catch_500 e), fs)
  | inr l => (inr l, fs)
  end.

End Listing.

(* ================================================================== *)
(** ** The container client ([UnraidClient]) *)

Module Unraid.

(** [ContainerStatus(name, state)]. *)
Record ContainerStatus := { cs_name : string; cs_state : string }.

(** One element of [data.docker.containers]; [None] is a missing key. *)
Record Container := { c_names : option (list string); c_state : option string }.

(** The three GraphQL documents the client sends:
    [{ docker { containers { names state } } }] and the
    [start(id: name)] / [stop(id: name)] mutations. *)
Inductive Query := QContainers | QStart (name : string) | QStop (name : string).

(** The parsed JSON body, reduced to what the client reads:
    [result.get("data", {}).get("docker", {}).get("containers", [])],
    [None] when one of the keys is missing. *)
Abbreviation Response := (option (list Container)).

(** What the client does, in order. *)
Inductive Event := EQuery (q : Query) | ESleep (seconds : nat).

(** An exception raised by [_query]: [httpx] transport errors, timeouts
    and [raise_for_status]. *)
Inductive Exn := TransportError (msg : string).

Section Client.

(** The remote server's own state, and how it answers one request. *)
Variable RS : Type.
Variable server : Query -> RS -> (Exn + Response) * RS.

Record World := { w_remote : RS; w_log : list Event }.

(** A coroutine of the client: it raises or returns, and moves the world. *)
Definition M (A : Type) := World -> (Exn + A) * World.

Definition ret {A} (a : A) : M A := fun w => (inr a, w).

Definition bind {A B} (m : M A) (k : A -> M B) : M B :=
  fun w => match m w with
           | (inl e, w') => (inl e, w')
           | (inr a, w') => k a w'
           end.

Local Notation "x <-- m ;; k" := (bind m (fun x => k))
  (at level 100, m at next level, right associativity).

(** [try: m except Exception: pass]. *)
Definition swallow (m : M Response) : M unit :=
  fun w => match m w with (_, w') => (inr tt, w') end.

Definition emit (ev : Event) : World -> World :=
  fun w => {| w_remote := w_remote w; w_log := w_log w ++ [ev] |}.

(** [_query(query)]. *)
Definition _query (q : Query) : M Response :=
  fun w => match server q (w_remote w) with
           | (r, rs') => (r, {| w_remote := rs'; w_log := w_log w ++ [EQuery q] |})
           end.

(** [await asyncio.sleep(n)]. *)
Definition sleep (n : nat) : M unit := fun w => (inr tt, emit (ESleep n) w).

(** [f"/{container_name}" in names or container_name in names]. *)
Definition matches (container_name : string) (c : Container) : bool :=
  let names := default [] (c_names c) in
  existsb (String.eqb (String.append "/" container_name)) names
  || existsb (String.eqb container_name) names.

(** The [for container in containers] loop of [get_container_status]. *)
Fixpoint find_status (container_name : string) (containers : list Container)
  : option ContainerStatus :=
  match containers with
  | [] => None
  | c :: cs =>
      if matches container_name c then
        Some {| cs_name := container_name; cs_state := default "UNKNOWN" (c_state c) |}
      else find_status container_name cs
  end.

Definition get_container_status (container_name : string) : M (option ContainerStatus) :=
  result <-- _query QContainers ;;
  ret (find_status container_name (default [] result)).

(** [status is not None and status.state == wanted]. *)
Definition in_state (wanted : string) (status : option ContainerStatus) : bool :=
  match status with
  | Some s => String.eqb (cs_state s) wanted
  | None => false
  end.

Definition start_container (container_name : string) : M bool :=
  _ <-- swallow (_query (QStart container_name)) ;;
  status <-- get_container_status container_name ;;
  ret (in_state "RUNNING" status).

Definition stop_container (container_name : string) : M bool :=
  _ <-- swallow (_query (QStop container_name)) ;;
  status <-- get_container_status container_name ;;
  ret (in_state "EXITED" status).

Definition restart_container (container_name : string) : M bool :=
  _ <-- stop_container container_name ;;
  _ <-- sleep 2 ;;
  start_container container_name.

End Client.

Arguments World RS : clear implicits.
Arguments w_remote {RS} _.
Arguments w_log {RS} _.
Arguments emit {RS} ev w.
Arguments _query {RS} server q w.
Arguments get_container_status {RS} server container_name w.
Arguments start_container {RS} server container_name w.
Arguments stop_container {RS} server container_name w.
Arguments restart_container {RS} server container_name w.

End Unraid.

(* ================================================================== *)
(** ** The HTTP endpoints of the container client ([main.py]) *)

Module Endpoints.
Import Unraid.

(** [UnraidClient.__init__]: [f"{url.rstrip('/')}/graphql"]. *)
Fixpoint drop_slashes (l : list ascii) : list ascii :=
  match l with
  | c :: r => if Ascii.eqb c slash then drop_slashes r else l
  | [] => []
  end.

Definition rstrip_slash (s : string) : string :=
  string_of_list_ascii (rev (drop_slashes (rev (list_ascii_of_string s)))).

Definition graphql_url (url : string) : string := String.append (rstrip_slash url) "/graphql".

(** The body of [GET /api/status]. *)
Record StatusBody :=
  { sb_container : string; sb_state : string; sb_error : option string }.

(** The body of [POST /api/start], [/api/stop] and [/api/restart]. *)
Record ActionBody := { ab_success : bool; ab_message : string }.

Section Server.
Context {RS : Type} (server : Query -> RS -> (Exn + Response) * RS).

(** [get_status()], for the container [MINECRAFT_CONTAINER]; [str(e)] of a
    transport error is its message. *)
Definition get_status (MINECRAFT_CONTAINER : string) (w : World RS)
  : (Raised + StatusBody) * World RS :=
  match get_container_status server MINECRAFT_CONTAINER w with
  | (inl (TransportError msg), w') =>
      (inr {| sb_container := MINECRAFT_CONTAINER; sb_state := "ERROR"; sb_error := Some msg |}, w')
  | (inr (Some status), w') =>
      (inr {| sb_container := cs_name status; sb_state := cs_state status; sb_error := None |}, w')
  | (inr None, w') =>
      (inr {| sb_container := MINECRAFT_CONTAINER; sb_state := "NOT_FOUND"; sb_error := None |}, w')
  end.

(** The common shape of [restart_server], [start_server], [stop_server]. *)
Definition action_endpoint (action : World RS -> (Exn + bool) * World RS)
    (ok_message fail_message : string) (w : World RS)
  : (Raised + ActionBody) * World RS :=
  match action w with
  | (inl (TransportError msg), w') => (inl (HTTPExc 500 msg), w')
  | (inr true, w') => (inr {| ab_success := true; ab_message := ok_message |}, w')
  | (inr false, w') => (inr {| ab_success := false; ab_message := fail_message |}, w')
  end.

Definition restart_server (MINECRAFT_CONTAINER : string) :=
  action_endpoint (restart_container server MINECRAFT_CONTAINER)
    "Server restarted successfully" "Failed to restart server".

Definition start_server (MINECRAFT_CONTAINER : string) :=
  action_endpoint (start_container server MINECRAFT_CONTAINER)
    "Server started successfully" "Failed to start server".

Definition stop_server (MINECRAFT_CONTAINER : string) :=
  action_endpoint (stop_container server MINECRAFT_CONTAINER)
    "Server stopped successfully" "Failed to stop server".

End Server.
End Endpoints.

(* ================================================================== *)
(** ** The shape of the tree below the root *)

(** Every entry other than the root lies strictly below the root and
    sits in a directory. *)
Definition tree_wf (root : Path) (fs : FS) : Prop :=
  forall p v, fs !! p = Some v -> p <> root ->
    (exists rest x, p = root ++ rest ++ [x]) /\ fs !! parent p = Some Dir.

(** [tree_wf] as a check over the entries. *)
Definition tree_wfb (root : Path) (fs : FS) : bool :=
  forallb (fun kv => bool_decide (kv.1 = root)
                     || (is_prefix root kv.1 && (length root <? length kv.1)
                         && is_dir fs (parent kv.1)))
          (map_to_list fs).

(* ================================================================== *)
(** ** Auxiliary predicates and concrete inputs *)

(** [Sorted] takes a relation; [key_le] as one. *)
Definition key_leR (a b : Item) : Prop := key_le a b = true.

(** Whether a string holds a ["/"]. *)
Fixpoint has_slash (s : string) : bool :=
  match s with
  | EmptyString => false
  | String c rest => Ascii.eqb c slash || has_slash rest
  end.

Module Fixtures.
Import Unraid.

(** A remote whose only container is reported as ["/x"], holding whether
    it runs; the start mutation takes effect but answers with an error,
    the behaviour the comment in [start_container] describes. *)
Definition quirky_server (q : Query) (running : bool) : (Exn + Response) * bool :=
  match q with
  | QContainers =>
      (inr (Some [{| c_names := Some ["/x"];
                     c_state := Some (if running then "RUNNING" else "EXITED") |}]),
       running)
  | QStart _ => (inl (TransportError "400 Bad Request"), true)
  | QStop _ => (inr None, false)
  end.

(** A remote that cannot be reached. *)
Definition unreachable_server (q : Query) (s : unit) : (Exn + Response) * unit :=
  (inl (TransportError "timed out"), s).

Definition idle (running : bool) : World bool := {| w_remote := running; w_log := [] |}.

(** The root [/srv/plugins], as an empty directory. *)
Definition plugins_root : Path := ["srv"; "plugins"].
Definition fs0 : FS := {[ plugins_root := Dir ]}.

(** A folder [d] holding [a.jar]. *)
Definition fs_d : FS :=
  <[["srv"; "plugins"; "d"; "a.jar"] := File []]> (<[["srv"; "plugins"; "d"] := Dir]> fs0).


(** The root holding file [b.txt], folder [A] and file [a.txt]. *)
Definition fs_mixed : FS :=
  <[["srv"; "plugins"; "b.txt"] := File []]>
  (<[["srv"; "plugins"; "A"] := Dir]>
  (<[["srv"; "plugins"; "a.txt"] := File []]> fs0)).

(** The root holding files [A.txt] and [a.txt]. *)
Definition fs_case : FS :=
  <[["srv"; "plugins"; "A.txt"] := File []]> (<[["srv"; "plugins"; "a.txt"] := File []]> fs0).



End Fixtures.

(* ================================================================== *)
(** * Properties *)

(** ** Resolution *)

Lemma resolve_from_plain (acc cs : list string) :
  forallb plain_component acc = true ->
  forallb plain_component (resolve_from acc cs) = true.
Proof.
  revert acc; induction cs as [|c cs IH]; intros acc Hacc; simpl; [exact Hacc|].
  destruct (String.eqb c "..") eqn:E1.
  { apply IH. destruct acc; simpl in *; [reflexivity|].
    apply andb_prop in Hacc; tauto. }
  destruct (String.eqb c ".") eqn:E2; [now apply IH|].
  destruct (String.eqb c "") eqn:E3; [now apply IH|].
  apply IH; simpl. unfold plain_component. rewrite E1, E2, E3. exact Hacc.
Qed.

Lemma resolved_rev (p : Path) : resolved (rev p) = resolved p.
Proof.
  unfold resolved. induction p as [|c p IH]; simpl; [reflexivity|].
  rewrite forallb_app, IH; simpl. rewrite andb_true_r, andb_comm. reflexivity.
Qed.

Lemma resolve_resolved (p : Path) : resolved (resolve p) = true.
Proof.
  unfold resolve. rewrite resolved_rev. apply resolve_from_plain. reflexivity.
Qed.

Lemma resolve_from_app_resolved (acc root cs : list string) :
  resolved root = true ->
  resolve_from acc (root ++ cs) = resolve_from (rev root ++ acc) cs.
Proof.
  revert acc; induction root as [|c root IH]; intros acc Hr; simpl; [reflexivity|].
  simpl in Hr. apply andb_prop in Hr as [Hc Hr].
  unfold plain_component in Hc.
  destruct (String.eqb c "") eqn:E3; [discriminate|].
  destruct (String.eqb c ".") eqn:E2; [discriminate|].
  destruct (String.eqb c "..") eqn:E1; [discriminate|].
  simpl. rewrite IH by exact Hr. rewrite <- app_assoc. reflexivity.
Qed.

Lemma resolve_of_resolved (root : Path) :
  resolved root = true -> resolve root = root.
Proof.
  intros Hr. unfold resolve.
  rewrite <- (app_nil_r root) at 1.
  rewrite resolve_from_app_resolved by exact Hr. simpl.
  rewrite app_nil_r, rev_involutive. reflexivity.
Qed.

Lemma is_prefix_spec (base target : Path) :
  is_prefix base target = true <-> exists rest, target = base ++ rest.
Proof.
  revert target; induction base as [|b bs IH]; intros [|t ts]; simpl.
  - split; [intros _; exists []; reflexivity | intros _; reflexivity].
  - split; [intros _; exists (t :: ts); reflexivity | intros _; reflexivity].
  - split; [discriminate | intros [rest Hr]; discriminate].
  - rewrite andb_true_iff, String.eqb_eq, IH. split.
    + intros [-> [rest ->]]. exists rest. reflexivity.
    + intros [rest Hr]. injection Hr as -> ->. eauto.
Qed.

(** ** NUL bytes and the filesystem calls *)

Lemma existsb_rev {A} (f : A -> bool) (l : list A) : existsb f (rev l) = existsb f l.
Proof.
  induction l as [|x l IH]; simpl; [reflexivity|].
  rewrite existsb_app, IH. simpl. rewrite orb_false_r, orb_comm. reflexivity.
Qed.

Lemma resolve_from_no_nul (acc cs : list string) :
  existsb has_nul acc = false -> existsb has_nul cs = false ->
  existsb has_nul (resolve_from acc cs) = false.
Proof.
  revert acc; induction cs as [|c cs IH]; intros acc Hacc Hcs; simpl; [exact Hacc|].
  simpl in Hcs. apply orb_false_iff in Hcs as [Hc Hcs].
  destruct (String.eqb c ".."); [apply IH; [|exact Hcs]|].
  { destruct acc; simpl in *; [reflexivity|]. apply orb_false_iff in Hacc; tauto. }
  destruct (String.eqb c "."); [now apply IH|].
  destruct (String.eqb c ""); [now apply IH|].
  apply IH; [simpl; rewrite Hc; exact Hacc | exact Hcs].
Qed.

Lemma resolve_no_nul (p : Path) :
  existsb has_nul p = false -> existsb has_nul (resolve p) = false.
Proof.
  intros H. unfold resolve. rewrite existsb_rev. now apply resolve_from_no_nul.
Qed.

(** A non-empty path [safe_path] accepts has no NUL byte, nor has the root. *)
Lemma safe_path_no_nul (root : Path) (s : string) (t : Path) :
  s <> "" -> safe_path root s = inr t ->
  existsb has_nul root = false /\ existsb has_nul t = false.
Proof.
  intros Hs Ht. unfold safe_path in Ht. apply String.eqb_neq in Hs. rewrite Hs in Ht.
  destruct (existsb has_nul (root ++ parts (lstrip_slash s))) eqn:N; [discriminate|].
  rewrite existsb_app in N. apply orb_false_iff in N as [N1 N2].
  destruct (is_prefix _ _); [|discriminate]. injection Ht as <-.
  split; [exact N1|]. apply resolve_no_nul. rewrite existsb_app, N1, N2. reflexivity.
Qed.


Lemma safe_path_root_no_nul (root : Path) (s : string) (t : Path) :
  safe_path root s = inr t -> existsb has_nul t = false -> existsb has_nul root = false.
Proof.
  intros Ht Hn. destruct (String.eqb_spec s "") as [->|Hs].
  - injection Ht as <-. exact Hn.
  - exact (proj1 (safe_path_no_nul root s t Hs Ht)).
Qed.

Lemma stat_hit (fs : FS) (p : Path) (n : Node) :
  existsb has_nul p = false -> fs !! p = Some n -> stat fs p = inr n.
Proof. intros H1 H2. unfold stat. rewrite H1, H2. reflexivity. Qed.

Lemma stat_test_hit (test : Node -> bool) (fs : FS) (p : Path) (n : Node) :
  existsb has_nul p = false -> fs !! p = Some n -> stat_test test fs p = inr (test n).
Proof. intros H1 H2. unfold stat_test. rewrite (stat_hit fs p n H1 H2). reflexivity. Qed.

(** [exists()], [is_dir()] and [is_file()] answer [True] only on an
    entry of the tree that passes the test. *)
Lemma stat_test_true (test : Node -> bool) (fs : FS) (p : Path) :
  stat_test test fs p = inr true -> exists n, fs !! p = Some n /\ test n = true.
Proof.
  unfold stat_test, stat. destruct (existsb has_nul p); [discriminate|].
  destruct (fs !! p) as [n|]; [intros H; injection H as H; eauto|].
  destruct (ignored _); discriminate.
Qed.

Lemma Path_is_dir_true (fs : FS) (p : Path) : Path_is_dir fs p = inr true -> fs !! p = Some Dir.
Proof.
  intros H. apply stat_test_true in H as [[c|] [H1 H2]]; [discriminate | exact H1].
Qed.

Lemma Path_is_file_true (fs : FS) (p : Path) :
  Path_is_file fs p = inr true -> exists c, fs !! p = Some (File c).
Proof.
  intros H. apply stat_test_true in H as [[c|] [H1 H2]]; [eauto | discriminate].
Qed.

Lemma missing_rev_cons (fs : FS) (c : string) (rp : list string) :
  missing_rev fs (c :: rp) =
    match fs !! rev rp with
    | Some Dir => if NAME_MAX <? String.length c then Some NameTooLong else None
    | Some (File _) => Some NotADirectoryError
    | None => match missing_rev fs rp with
              | Some e => Some e
              | None => Some FileNotFoundError
              end
    end.
Proof. reflexivity. Qed.



(** A path that can be created lies in a directory of the tree. *)
Lemma missing_error_none (fs : FS) (p : Path) :
  missing_error fs p = None -> p <> [] /\ fs !! parent p = Some Dir.
Proof.
  unfold missing_error. destruct (_ <=? _); [discriminate|].
  destruct (rev p) as [|c rp] eqn:E; [discriminate|].
  assert (Hp : p = rev rp ++ [c]) by (rewrite <- (rev_involutive p), E; reflexivity).
  rewrite missing_rev_cons. intros H. split; [subst p; destruct (rev rp); discriminate|].
  unfold parent. rewrite Hp, removelast_last.
  destruct (fs !! rev rp) as [[c'|]|]; [discriminate | reflexivity |].
  destruct (missing_rev fs rp); discriminate.
Qed.

Lemma mkdir_ok (fs : FS) (p : Path) (fs' : FS) :
  mkdir fs p = inr fs' ->
  fs' = <[p := Dir]> fs /\ fs !! p = None /\ existsb has_nul p = false /\
  p <> [] /\ fs !! parent p = Some Dir.
Proof.
  unfold mkdir. destruct (existsb has_nul p) eqn:N; [discriminate|].
  destruct (fs !! p) eqn:Hp; [discriminate|].
  destruct (missing_error fs p) eqn:M; [discriminate|].
  intros H. injection H as <-. apply missing_error_none in M. tauto.
Qed.

Lemma write_bytes_ok (fs : FS) (p : Path) (content : list Byte.byte) (fs' : FS) :
  write_bytes fs p content = inr fs' ->
  fs' = <[p := File content]> fs /\ existsb has_nul p = false /\
  ((exists c, fs !! p = Some (File c)) \/
   (fs !! p = None /\ p <> [] /\ fs !! parent p = Some Dir)).
Proof.
  unfold write_bytes. destruct (existsb has_nul p) eqn:N; [discriminate|].
  destruct (fs !! p) as [[c|]|] eqn:Hp; [| discriminate |].
  - intros H. injection H as <-. eauto.
  - destruct (missing_error fs p) eqn:M; [discriminate|].
    intros H. injection H as <-. apply missing_error_none in M. tauto.
Qed.

Lemma existsb_snoc_nul (d : Path) (n : string) :
  existsb has_nul (d ++ [n]) = existsb has_nul d || has_nul n.
Proof. rewrite existsb_app. simpl. rewrite orb_false_r. reflexivity. Qed.






(** ** C1: path confinement *)


(** Concrete runs of [safe_path] below [/srv/plugins]. *)
Example safe_path_dotdot : safe_path ["srv"; "plugins"] "../x" = inl invalid_path.
Proof. reflexivity. Qed.

Example safe_path_absolute_looking :
  safe_path ["srv"; "plugins"] "/etc/passwd" = inr ["srv"; "plugins"; "etc"; "passwd"].
Proof. reflexivity. Qed.

Example safe_path_back_inside :
  safe_path ["srv"; "plugins"] "a/../../plugins/b" = inr ["srv"; "plugins"; "b"].
Proof. reflexivity. Qed.



(* ================================================================== *)
(** ** The container client *)

Module UnraidProps.
Import Unraid.

Section Remote.
Context {RS : Type} (server : Query -> RS -> (Exn + Response) * RS).

(** ** C2: swallow, then verify *)

(** Claim C2. [start_container] discards whatever the start mutation
    answers, error included, and its outcome is exactly that of the
    following status read: it raises what that read raises, and
    otherwise returns true iff the container was found in state
    ["RUNNING"]. [stop_container] is the same with ["EXITED"]. *)
Theorem start_stop_verify_only (name : string) (w : World RS) :
  start_container server name w =
    (match get_container_status server name (snd (_query server (QStart name) w)) with
     | (inl e, w2) => (inl e, w2)
     | (inr st, w2) => (inr (in_state "RUNNING" st), w2)
     end) /\
  stop_container server name w =
    (match get_container_status server name (snd (_query server (QStop name) w)) with
     | (inl e, w2) => (inl e, w2)
     | (inr st, w2) => (inr (in_state "EXITED" st), w2)
     end).
Proof.
  unfold start_container, stop_container, bind, swallow, ret.
  split; destruct (_query server _ w) as [r w1]; simpl;
    destruct (get_container_status server name w1) as [[e|st] w2]; reflexivity.
Qed.

(** ** C3: restart *)

(** Claim C3 (as amended). When [stop_container] returns, whichever
    boolean it returns, [restart_container] then sleeps 2 seconds, calls
    [start_container] and returns exactly its result; when
    [stop_container] raises (its status read failed), the exception
    propagates and neither the sleep nor the start happens. *)
Theorem restart_stop_then_start (name : string) (w : World RS) :
  restart_container server name w =
    match stop_container server name w with
    | (inl e, w1) => (inl e, w1)
    | (inr _, w1) => start_container server name (emit (ESleep 2) w1)
    end.
Proof.
  unfold restart_container, bind at 1.
  destruct (stop_container server name w) as [[e|b] w1]; reflexivity.
Qed.

(** ** C4: looking a container up by name *)

(** Claim C4. [get_container_status] returns what the [for] loop finds
    in the containers list of the answer (an empty list when the keys
    are missing); a container matches iff its names contain the queried
    name or the name prefixed with ["/"]; the loop returns [None] iff no
    container matches, and otherwise a status carrying the queried name
    and the state of the first matching container (["UNKNOWN"] when that
    container has no [state] key). *)
Theorem get_container_status_lookup (name : string) (w : World RS)
    (containers : list Container) (c : Container) :
  get_container_status server name w =
    (match _query server QContainers w with
     | (inl e, w') => (inl e, w')
     | (inr r, w') => (inr (find_status name (default [] r)), w')
     end) /\
  (matches name c = true <->
     In (String.append "/" name) (default [] (c_names c)) \/ In name (default [] (c_names c))) /\
  (find_status name containers = None <->
     Forall (fun c => matches name c = false) containers) /\
  (forall st, find_status name containers = Some st <->
     exists pre c post, containers = pre ++ c :: post /\
       Forall (fun c => matches name c = false) pre /\ matches name c = true /\
       st = {| cs_name := name; cs_state := default "UNKNOWN" (c_state c) |}).
Proof.
  split.
  { unfold get_container_status, bind, ret.
    destruct (_query server QContainers w) as [[e|r] w']; reflexivity. }
  split.
  { unfold matches. rewrite orb_true_iff, !existsb_exists. split.
    - intros [[x [Hx Ex]]|[x [Hx Ex]]]; apply String.eqb_eq in Ex; subst x; auto.
    - intros [Hx|Hx]; [left|right]; eexists; split; [exact Hx| |exact Hx|];
        apply String.eqb_eq; reflexivity. }
  split.
  { induction containers as [|c0 cs IH]; simpl; [split; auto|].
    destruct (matches name c0) eqn:M.
    - split; [discriminate|]. intros HF. inversion HF; congruence.
    - rewrite IH. split; [intros; constructor; auto | intros HF; inversion HF; auto]. }
  intros st. induction containers as [|c0 cs IH]; simpl.
  - split; [discriminate|]. intros (pre & c1 & post & E & _). destruct pre; discriminate.
  - destruct (matches name c0) eqn:M.
    + split.
      * intros H. injection H as <-. exists [], c0, cs. auto.
      * intros (pre & c1 & post & E & HF & Hm & ->).
        destruct pre as [|p pre]; simpl in E; injection E as -> E; [reflexivity|].
        inversion HF; congruence.
    + rewrite IH. split.
      * intros (pre & c1 & post & E & HF & Hm & ->).
        exists (c0 :: pre), c1, post. rewrite E. auto.
      * intros (pre & c1 & post & E & HF & Hm & ->).
        destruct pre as [|p pre]; simpl in E; injection E as -> E; [congruence|].
        exists pre, c1, post. inversion HF. auto.
Qed.

End Remote.
End UnraidProps.

Module UnraidRuns.
Import Unraid Fixtures.

Example get_status_slash_name :
  fst (get_container_status quirky_server "x" (idle true))
    = inr (Some {| cs_name := "x"; cs_state := "RUNNING" |}) /\
  fst (get_container_status quirky_server "y" (idle true)) = inr None.
Proof. split; reflexivity. Qed.

Example start_true_despite_mutation_error :
  fst (_query quirky_server (QStart "x") (idle false)) = inl (TransportError "400 Bad Request") /\
  fst (start_container quirky_server "x" (idle false)) = inr true.
Proof. split; reflexivity. Qed.

(** Claim C3, counterexample: with the remote unreachable, the status read
    inside [stop_container] raises, and [restart_container] raises with
    it after two requests: it neither sleeps nor issues the start
    mutation. *)
Lemma restart_skips_start_when_stop_raises :
  restart_container unreachable_server "x" {| w_remote := tt; w_log := [] |}
    = (inl (TransportError "timed out"),
       {| w_remote := tt; w_log := [EQuery (QStop "x"); EQuery QContainers] |}) /\
  ~ In (ESleep 2) [EQuery (QStop "x"); EQuery QContainers] /\
  ~ In (EQuery (QStart "x")) [EQuery (QStop "x"); EQuery QContainers].
Proof.
  split; [reflexivity|].
  split; simpl; intros [H|[H|[]]]; discriminate.
Qed.

End UnraidRuns.

(* ================================================================== *)
(** ** The file service *)

Module FileProps.
Import Fixtures.

Lemma split_slash_no_slash (s c : string) :
  In c (split_slash s) -> has_slash c = false.
Proof.
  revert c; induction s as [|ch rest IH]; intros c Hin; simpl in Hin.
  - destruct Hin as [<-|[]]; reflexivity.
  - destruct (Ascii.eqb ch slash) eqn:E.
    + destruct Hin as [<-|Hin]; [reflexivity | now apply IH].
    + destruct (split_slash rest) as [|w ws] eqn:Hs.
      * destruct Hin as [<-|[]]. simpl. now rewrite E.
      * destruct Hin as [<-|Hin].
        -- simpl. rewrite E. apply IH. left. reflexivity.
        -- apply IH. right. exact Hin.
Qed.

(** A non-empty [Path(s).name] is one of the components of [s]. *)
Lemma py_name_in_parts (s : string) :
  py_name s <> "" -> In (py_name s) (parts s).
Proof.
  unfold py_name. destruct (last (parts s)) as [n|] eqn:E; simpl; [|congruence].
  intros _. apply list_elem_of_In. apply last_Some in E as [l' ->].
  apply list_elem_of_In, in_or_app. right. left. reflexivity.
Qed.

Lemma py_name_no_slash (s : string) : has_slash (py_name s) = false.
Proof.
  destruct (String.eqb (py_name s) "") eqn:E.
  - apply String.eqb_eq in E. rewrite E. reflexivity.
  - apply String.eqb_neq, py_name_in_parts in E.
    unfold parts in E. apply filter_In in E as [E _].
    exact (split_slash_no_slash _ _ E).
Qed.

(** An accepted name is a plain component: not empty, not ["."] or [".."]. *)
Lemma accepted_name_plain (n : string) :
  n <> "" -> starts_with_dot n = false -> plain_component n = true.
Proof.
  intros Hn Hd. unfold plain_component.
  destruct (String.eqb_spec n ""); [congruence|].
  destruct (String.eqb_spec n "."); [subst; discriminate|].
  destruct (String.eqb_spec n ".."); [subst; discriminate|].
  reflexivity.
Qed.

Lemma safe_path_under_root (root : Path) (path : string) (d : Path) :
  resolved root = true -> safe_path root path = inr d ->
  resolved d = true /\ exists rest, d = root ++ rest.
Proof.
  intros Hr Hd. unfold safe_path in Hd. rewrite (resolve_of_resolved root Hr) in Hd.
  destruct (String.eqb path "").
  - injection Hd as <-. split; [exact Hr|]. exists []. symmetry. apply app_nil_r.
  - destruct (existsb has_nul _); [discriminate|].
    destruct (is_prefix root _) eqn:P; [|discriminate]. injection Hd as <-.
    split; [apply resolve_resolved | now apply is_prefix_spec].
Qed.

(** ** C5: upload sanitizes the file name *)



(** The upload of ["../../evil.txt"] into the root writes
    [/srv/plugins/evil.txt]; [".hidden"] is refused; a file named after
    the folder [d] is refused by [open()]. *)
Example upload_evil :
  upload_file plugins_root fs0 "../../evil.txt" [Byte.x41] ""
    = (inr {| up_filename := "evil.txt"; up_size := 1 |},
       <[["srv"; "plugins"; "evil.txt"] := File [Byte.x41]]> fs0).
Proof. reflexivity. Qed.

Example upload_hidden :
  upload_file plugins_root fs0 ".hidden" [Byte.x41] ""
    = (inl (HTTPExc 400 "Invalid filename"), fs0).
Proof. reflexivity. Qed.

Example upload_over_folder :
  upload_file plugins_root fs_d "x/d" [Byte.x41] ""
    = (inl (HTTPExc 500 "[Errno 21] Is a directory: '/srv/plugins/d'"), fs_d).
Proof. reflexivity. Qed.


Lemma has_child_spec (fs : FS) (d : Path) :
  has_child fs d = true <-> exists x v, fs !! (d ++ [x]) = Some v.
Proof.
  unfold has_child. rewrite existsb_exists. split.
  - intros [[k v] [Hin Hc]]. simpl in Hc.
    apply list_elem_of_In, elem_of_map_to_list in Hin.
    destruct k as [|c k]; [discriminate|].
    apply bool_decide_eq_true in Hc.
    destruct (exists_last (l := c :: k) ltac:(discriminate)) as [k' [x Hk]].
    rewrite Hk in Hc, Hin. rewrite removelast_last in Hc. subst k'.
    exists x, v. exact Hin.
  - intros [x [v Hv]]. exists (d ++ [x], v). split.
    + apply list_elem_of_In, elem_of_map_to_list. exact Hv.
    + simpl. destruct (d ++ [x]) eqn:E; [destruct d; discriminate|].
      apply bool_decide_eq_true. rewrite <- E. apply removelast_last.
Qed.

(** ** C6: the root is never deleted *)

(** Claim C6. [delete_item] refuses the empty path with [Path required]
    (400) before anything else, whatever the tree holds; and, the root
    existing, any non-empty path that [safe_path] resolves to the root
    itself is refused with [Cannot delete root directory] (400); the tree
    is left as it was in both cases. *)
Theorem delete_refuses_root (root : Path) (fs : FS) (path : string)
    (Hroot : resolved root = true) (Hexists : path_exists fs root = true) :
  delete_item root fs "" = (inl (HTTPExc 400 "Path required"), fs) /\
  (path <> "" -> safe_path root path = inr root ->
     delete_item root fs path = (inl (HTTPExc 400 "Cannot delete root directory"), fs)).
Proof.
  split; [reflexivity|].
  intros Hp Hsp. destruct (safe_path_no_nul root path root Hp Hsp) as [Hn _].
  unfold path_exists in Hexists. destruct (fs !! root) as [v|] eqn:Hv; [|discriminate].
  unfold delete_item.
  apply String.eqb_neq in Hp. rewrite Hp, Hsp. unfold Path_exists.
  rewrite (stat_test_hit _ fs root v Hn Hv).
  rewrite bool_decide_eq_true_2 by reflexivity. reflexivity.
Qed.

Example delete_dot_refused :
  delete_item plugins_root fs0 "." = (inl (HTTPExc 400 "Cannot delete root directory"), fs0).
Proof. reflexivity. Qed.

(** ** C7: files are deleted, directories only when empty *)


(** A folder [d] holding [a.jar]: deleting [d] is refused; once [d/a.jar]
    is deleted, deleting [d] succeeds. *)
Example delete_nonempty_then_empty :
  delete_item plugins_root fs_d "d" = (inl (HTTPExc 400 "Folder is not empty"), fs_d) /\
  delete_item plugins_root fs_d "d/a.jar"
    = (inr "d/a.jar", <[["srv"; "plugins"; "d"] := Dir]> fs0) /\
  delete_item plugins_root (<[["srv"; "plugins"; "d"] := Dir]> fs0) "d" = (inr "d", fs0).
Proof. split; [|split]; reflexivity. Qed.

(** ** C8: creating a folder *)




Example create_folder_twice :
  create_folder plugins_root fs0 "lib" "" = (inr "lib", <[["srv"; "plugins"; "lib"] := Dir]> fs0) /\
  create_folder plugins_root (<[["srv"; "plugins"; "lib"] := Dir]> fs0) "lib" ""
    = (inl (HTTPExc 400 "Folder already exists"), <[["srv"; "plugins"; "lib"] := Dir]> fs0).
Proof. split; reflexivity. Qed.

(** ** C10: a regular file as the parent of [create_folder] *)



(** ** C9: the order of [list_files] *)

Lemma str_leb_refl (s : list Z) : str_leb s s = true.
Proof.
  induction s as [|x s IH]; simpl; [reflexivity|].
  rewrite Z.ltb_irrefl, Z.eqb_refl, IH. reflexivity.
Qed.

Lemma str_leb_total (a b : list Z) : str_leb a b = false -> str_leb b a = true.
Proof.
  revert b; induction a as [|x a IH]; intros [|y b]; simpl; try discriminate; [reflexivity|].
  intros H. apply orb_false_iff in H as [H1 H2]. apply Z.ltb_ge in H1.
  destruct (Z.eq_dec x y) as [->|Hne].
  - rewrite Z.eqb_refl in H2. simpl in H2.
    rewrite Z.ltb_irrefl, Z.eqb_refl, (IH b H2). reflexivity.
  - assert (Hlt : (y < x)%Z) by lia. apply Z.ltb_lt in Hlt. rewrite Hlt. reflexivity.
Qed.

Lemma key_le_total (a b : Item) : key_le a b = false -> key_le b a = true.
Proof.
  unfold key_le. destruct (sort_key a) as [r1 s1], (sort_key b) as [r2 s2].
  intros H. apply orb_false_iff in H as [H1 H2].
  apply Nat.ltb_ge in H1.
  destruct (Nat.eq_dec r1 r2) as [->|Hne].
  - rewrite Nat.eqb_refl in H2 |- *. simpl in H2 |- *.
    rewrite (str_leb_total s1 s2 H2). apply orb_true_r.
  - assert (r2 < r1) as Hlt by lia. apply Nat.ltb_lt in Hlt. rewrite Hlt. reflexivity.
Qed.

Lemma key_le_same_key (a b : Item) : sort_key a = sort_key b -> key_le a b = true.
Proof.
  unfold key_le. intros ->. destruct (sort_key b) as [r s].
  rewrite Nat.eqb_refl, str_leb_refl. apply orb_true_r.
Qed.

Lemma insert_item_sorted (x : Item) (l : list Item) :
  Sorted key_leR l -> Sorted key_leR (insert_item x l).
Proof.
  induction l as [|y l IH]; intros Hs; simpl.
  - repeat constructor.
  - destruct (key_le x y) eqn:E.
    + constructor; [exact Hs | constructor; exact E].
    + apply Sorted_inv in Hs as [Hl Hy]. constructor; [now apply IH|].
      destruct l as [|z l']; simpl.
      * constructor. now apply key_le_total.
      * destruct (key_le x z); constructor; [now apply key_le_total|].
        now apply HdRel_inv in Hy.
Qed.

Lemma insert_item_perm (x : Item) (l : list Item) :
  Permutation (insert_item x l) (x :: l).
Proof.
  induction l as [|y l IH]; simpl; [reflexivity|].
  destruct (key_le x y); [reflexivity|].
  rewrite IH. apply perm_swap.
Qed.

(** Items with a given key keep their relative order through an insertion. *)
Lemma insert_item_filter_key (k : nat * list Z) (x : Item) (l : list Item) :
  List.filter (fun it => bool_decide (sort_key it = k)) (insert_item x l) =
  List.filter (fun it => bool_decide (sort_key it = k)) (x :: l).
Proof.
  induction l as [|y l IH]; simpl; [reflexivity|].
  destruct (key_le x y) eqn:E; [reflexivity|].
  simpl. rewrite IH. simpl.
  destruct (bool_decide (sort_key y = k)) eqn:Hy, (bool_decide (sort_key x = k)) eqn:Hx;
    try reflexivity.
  apply bool_decide_eq_true in Hy, Hx.
  rewrite key_le_same_key in E by congruence. discriminate.
Qed.

Lemma sort_items_spec (l : list Item) :
  Sorted key_leR (sort_items l) /\ Permutation (sort_items l) l /\
  forall k, List.filter (fun it => bool_decide (sort_key it = k)) (sort_items l) =
            List.filter (fun it => bool_decide (sort_key it = k)) l.
Proof.
  induction l as [|x l [IHs [IHp IHf]]]; simpl.
  - split; [constructor|]. split; [reflexivity|]. reflexivity.
  - split; [now apply insert_item_sorted|]. split.
    + rewrite insert_item_perm. now apply perm_skip.
    + intros k. rewrite insert_item_filter_key. simpl. rewrite IHf. reflexivity.
Qed.

(** Claim C9 (as amended). Whatever order the directory enumeration
    yields the children in, the items [list_files] returns are the
    children of the resolved directory, sorted by the key
    (folders first, then the lower-cased name) ascending; items with the
    same key (same kind, names equal up to case) are not ordered by it
    and keep the order of the enumeration. *)
Theorem list_files_sorted (iterdir : FS -> Path -> list string)
    (root : Path) (fs : FS) (path : string) (L : Listing) (fs' : FS) :
  list_files iterdir root fs path = (inr L, fs') ->
  exists t items,
    safe_path root path = inr t /\ is_dir fs t = true /\
    make_items fs t (iterdir fs t) = inr items /\
    ls_items L = sort_items items /\
    Sorted key_leR (ls_items L) /\
    Permutation (ls_items L) items /\
    (forall k, List.filter (fun it => bool_decide (sort_key it = k)) (ls_items L) =
               List.filter (fun it => bool_decide (sort_key it = k)) items).
Proof.
  unfold list_files, list_files_body.
  destruct (safe_path root path) as [e|t]; [discriminate|].
  destruct (Path_exists fs t) as [e|[|]]; [discriminate| |discriminate].
  destruct (Path_is_dir fs t) as [e|[|]] eqn:Hdir; [discriminate| |discriminate].
  destruct (make_items fs t (iterdir fs t)) as [e|items] eqn:Hm; [discriminate|].
  intros H. injection H as <- _. exists t, items.
  apply Path_is_dir_true in Hdir.
  destruct (sort_items_spec items) as (Hs & Hp & Hf).
  repeat split; auto. unfold is_dir. rewrite Hdir. reflexivity.
Qed.

Example list_folders_first :
  option_map (map it_name) (match fst (list_files (fun _ _ => ["b.txt"; "A"; "a.txt"])
                                        plugins_root fs_mixed "") with
                            | inr L => Some (ls_items L) | inl _ => None end)
    = Some ["A"; "a.txt"; "b.txt"].
Proof. vm_compute. reflexivity. Qed.

(** Claim C9, counterexample: two enumerations of the same directory
    give two different listings, as [A.txt] and [a.txt] have the same
    key and the stable sort keeps them in enumeration order. *)
Lemma list_files_order_depends_on_enumeration :
  Permutation ["A.txt"; "a.txt"] ["a.txt"; "A.txt"] /\
  list_files (fun _ _ => ["A.txt"; "a.txt"]) plugins_root fs_case ""
    <> list_files (fun _ _ => ["a.txt"; "A.txt"]) plugins_root fs_case "".
Proof.
  split; [apply perm_swap|].
  intros H.
  apply (f_equal (fun r => match fst r with
                           | inr L => map it_name (ls_items L) | inl _ => [] end)) in H.
  vm_compute in H. discriminate.
Qed.

(** ** Witnesses: the theorems at concrete inputs *)


Lemma delete_refuses_root_witness :
  resolved plugins_root = true /\ path_exists fs_d plugins_root = true /\
  (delete_item plugins_root fs_d "" = (inl (HTTPExc 400 "Path required"), fs_d) /\
   ("." <> "" -> safe_path plugins_root "." = inr plugins_root ->
      delete_item plugins_root fs_d "."
        = (inl (HTTPExc 400 "Cannot delete root directory"), fs_d))).
Proof.
  split; [reflexivity|]. split; [reflexivity|].
  apply delete_refuses_root; [reflexivity | reflexivity].
Defined.




(** The listing of [fs_mixed] enumerated as [b.txt], [A], [a.txt]. *)
Lemma list_files_sorted_witness :
  list_files (fun _ _ => ["b.txt"; "A"; "a.txt"]) plugins_root fs_mixed ""
    = (inr {| ls_path := ""; ls_breadcrumbs := [];
              ls_items := [{| it_name := "A"; it_type := "folder"; it_size := None |};
                           {| it_name := "a.txt"; it_type := "file"; it_size := Some 0 |};
                           {| it_name := "b.txt"; it_type := "file"; it_size := Some 0 |}] |},
       fs_mixed) /\
  exists t items,
    safe_path plugins_root "" = inr t /\ is_dir fs_mixed t = true /\
    make_items fs_mixed t ((fun _ _ => ["b.txt"; "A"; "a.txt"]) fs_mixed t) = inr items /\
    [{| it_name := "A"; it_type := "folder"; it_size := None |};
     {| it_name := "a.txt"; it_type := "file"; it_size := Some 0 |};
     {| it_name := "b.txt"; it_type := "file"; it_size := Some 0 |}] = sort_items items /\
    Sorted key_leR [{| it_name := "A"; it_type := "folder"; it_size := None |};
                    {| it_name := "a.txt"; it_type := "file"; it_size := Some 0 |};
                    {| it_name := "b.txt"; it_type := "file"; it_size := Some 0 |}] /\
    Permutation [{| it_name := "A"; it_type := "folder"; it_size := None |};
                 {| it_name := "a.txt"; it_type := "file"; it_size := Some 0 |};
                 {| it_name := "b.txt"; it_type := "file"; it_size := Some 0 |}] items /\
    (forall k, List.filter (fun it => bool_decide (sort_key it = k))
                 [{| it_name := "A"; it_type := "folder"; it_size := None |};
                  {| it_name := "a.txt"; it_type := "file"; it_size := Some 0 |};
                  {| it_name := "b.txt"; it_type := "file"; it_size := Some 0 |}] =
               List.filter (fun it => bool_decide (sort_key it = k)) items).
Proof.
  assert (H : list_files (fun _ _ => ["b.txt"; "A"; "a.txt"]) plugins_root fs_mixed ""
    = (inr {| ls_path := ""; ls_breadcrumbs := [];
              ls_items := [{| it_name := "A"; it_type := "folder"; it_size := None |};
                           {| it_name := "a.txt"; it_type := "file"; it_size := Some 0 |};
                           {| it_name := "b.txt"; it_type := "file"; it_size := Some 0 |}] |},
       fs_mixed)) by (reflexivity).
  split; [exact H|].
  exact (list_files_sorted _ _ _ _ _ _ H).
Defined.

End FileProps.

(* ================================================================== *)
(** * Further properties of the code *)

Module PathProps.
Import Fixtures FileProps.

Lemma split_slash_nonempty (s : string) : split_slash s <> [].
Proof.
  destruct s as [|c r]; simpl; [discriminate|].
  destruct (Ascii.eqb c slash); [discriminate|]. destruct (split_slash r); discriminate.
Qed.

Lemma split_slash_app_slash (a b : string) :
  split_slash (String.append a (String slash b)) = split_slash a ++ split_slash b.
Proof.
  induction a as [|c a IH]; simpl; [reflexivity|].
  rewrite IH. destruct (Ascii.eqb c slash); [reflexivity|].
  destruct (split_slash a) as [|w ws] eqn:E; [now apply split_slash_nonempty in E|].
  reflexivity.
Qed.

Lemma parts_app_slash (a b : string) :
  parts (String.append a (String slash b)) = parts a ++ parts b.
Proof. unfold parts. rewrite split_slash_app_slash. apply List.filter_app. Qed.

Lemma parts_lstrip (s : string) : parts (lstrip_slash s) = parts s.
Proof.
  induction s as [|c r IH]; simpl; [reflexivity|].
  destruct (Ascii.eqb c slash) eqn:E; [|reflexivity].
  rewrite IH. unfold parts. simpl. rewrite E. reflexivity.
Qed.

Lemma split_slash_no_slash_id (s : string) : has_slash s = false -> split_slash s = [s].
Proof.
  induction s as [|c r IH]; simpl; [reflexivity|].
  intros H. apply orb_false_iff in H as [H1 H2]. rewrite H1, IH by exact H2. reflexivity.
Qed.

Lemma parts_plain (n : string) :
  plain_component n = true -> has_slash n = false -> parts n = [n].
Proof.
  intros Hp Hs. unfold parts. rewrite split_slash_no_slash_id by exact Hs. simpl.
  unfold plain_component in Hp.
  destruct (String.eqb n ""), (String.eqb n "."); simpl in *; try discriminate.
  reflexivity.
Qed.

Lemma resolve_from_app (acc l1 l2 : list string) :
  resolve_from acc (l1 ++ l2) = resolve_from (resolve_from acc l1) l2.
Proof.
  revert acc; induction l1 as [|c l1 IH]; intros acc; simpl; [reflexivity|].
  destruct (String.eqb c ".."); [apply IH|].
  destruct (String.eqb c "."); [apply IH|].
  destruct (String.eqb c ""); apply IH.
Qed.

Lemma resolve_snoc_plain (l : Path) (n : string) :
  plain_component n = true -> resolve (l ++ [n]) = resolve l ++ [n].
Proof.
  intros Hn. unfold resolve. rewrite resolve_from_app. simpl.
  unfold plain_component in Hn.
  destruct (String.eqb n ".."), (String.eqb n "."), (String.eqb n ""); try discriminate.
  reflexivity.
Qed.

Lemma resolve_from_in (acc cs : list string) (c : string) :
  In c (resolve_from acc cs) -> In c acc \/ In c cs.
Proof.
  revert acc; induction cs as [|c' cs IH]; intros acc Hin; simpl in Hin; [now left|].
  destruct (String.eqb c' "..");
    [destruct (IH _ Hin) as [H|H]; [left; destruct acc; simpl in *; tauto | right; now right]|].
  destruct (String.eqb c' ".");
    [destruct (IH _ Hin) as [H|H]; [now left | right; now right]|].
  destruct (String.eqb c' "");
    [destruct (IH _ Hin) as [H|H]; [now left | right; now right]|].
  destruct (IH _ Hin) as [[<-|H]|H]; [right; now left | now left | right; now right].
Qed.

Lemma safe_path_nonempty (root : Path) (s : string) :
  resolved root = true -> s <> "" ->
  safe_path root s =
    if existsb has_nul (root ++ parts s) then inl (PyExc embedded_null)
    else if is_prefix root (resolve (root ++ parts s)) then inr (resolve (root ++ parts s))
    else inl invalid_path.
Proof.
  intros Hr Hs. unfold safe_path. apply String.eqb_neq in Hs. rewrite Hs.
  rewrite parts_lstrip, (resolve_of_resolved root Hr). reflexivity.
Qed.

Lemma resolved_app (a b : Path) : resolved (a ++ b) = resolved a && resolved b.
Proof. apply forallb_app. Qed.

(** Joining resolved, slash-free components with ["/"] and parsing the
    result gives them back. *)
Lemma parts_concat (l : list string) :
  Forall (fun c => plain_component c = true /\ has_slash c = false) l ->
  parts (String.concat "/" l) = l.
Proof.
  induction l as [|c l IH]; intros HF; [reflexivity|].
  inversion HF as [|? ? [Hp Hs] HF']; subst.
  destruct l as [|c' l].
  - simpl. now apply parts_plain.
  - change (String.concat "/" (c :: c' :: l))
      with (String.append c (String slash (String.concat "/" (c' :: l)))).
    rewrite parts_app_slash, parts_plain, IH by assumption. reflexivity.
Qed.

(** A path made of resolved, slash-free components below the root is
    given back by [safe_path] from its ["/"]-joined form. *)
Lemma safe_path_concat (root rest : Path) :
  resolved root = true ->
  Forall (fun c => plain_component c = true /\ has_slash c = false) rest ->
  existsb has_nul (root ++ rest) = false \/ rest = [] ->
  safe_path root (String.concat "/" rest) = inr (root ++ rest).
Proof.
  intros Hr HF Hnul.
  destruct (String.eqb (String.concat "/" rest) "") eqn:E.
  - apply String.eqb_eq in E.
    assert (rest = []) as ->.
    { rewrite <- (parts_concat rest HF), E. reflexivity. }
    rewrite E, app_nil_r. reflexivity.
  - apply String.eqb_neq in E. rewrite safe_path_nonempty by assumption.
    rewrite parts_concat by exact HF.
    destruct Hnul as [Hnul| ->]; [rewrite Hnul | destruct E; reflexivity].
    assert (Hres : resolved (root ++ rest) = true).
    { rewrite resolved_app, Hr. simpl. apply forallb_forall. intros c Hc.
      rewrite List.Forall_forall in HF. apply HF, Hc. }
    rewrite (resolve_of_resolved _ Hres).
    replace (is_prefix root (root ++ rest)) with true; [reflexivity|].
    symmetry. apply is_prefix_spec. eauto.
Qed.

(** ** X1: navigating into a child *)

Lemma safe_path_snoc (root : Path) (path n : string) (d : Path) :
  resolved root = true -> existsb has_nul root = false ->
  safe_path root path = inr d ->
  plain_component n = true -> has_slash n = false -> has_nul n = false ->
  safe_path root (String.append path (String slash n)) = inr (d ++ [n]).
Proof.
  intros Hroot Hrootnul Hd Hn Hns Hnnul.

  rewrite safe_path_nonempty by (auto; destruct path; discriminate).
  rewrite parts_app_slash, (parts_plain n Hn Hns).
  rewrite (app_assoc root), existsb_snoc_nul, Hnnul, orb_false_r.
  rewrite resolve_snoc_plain by exact Hn.
  destruct (String.eqb path "") eqn:E.
  - apply String.eqb_eq in E. subst path. unfold safe_path in Hd. simpl in Hd.
    injection Hd as <-. simpl. rewrite app_nil_r, Hrootnul, (resolve_of_resolved root Hroot).
    replace (is_prefix root (root ++ [n])) with true; [reflexivity|].
    symmetry. apply is_prefix_spec. eauto.
  - apply String.eqb_neq in E. rewrite safe_path_nonempty in Hd by assumption.
    destruct (existsb has_nul (root ++ parts path)); [discriminate|].
    destruct (is_prefix root (resolve (root ++ parts path))) eqn:P; [|discriminate].
    injection Hd as Hd. subst d.
    apply is_prefix_spec in P as [rest Hrest]. rewrite Hrest.
    replace (is_prefix root ((root ++ rest) ++ [n])) with true; [reflexivity|].
    symmetry. apply is_prefix_spec. exists (rest ++ [n]). now rewrite app_assoc.
Qed.

(** With a resolved root free of NUL bytes: appending ["/"] and a plain
    name (not empty, ["."] or [".."], no ["/"] and no NUL byte) to a path
    that [safe_path] accepts gives that name inside the directory it
    resolved to. *)
Theorem safe_path_child (root : Path) (path n : string) (d : Path)
    (Hroot : resolved root = true) (Hrootnul : existsb has_nul root = false)
    (Hd : safe_path root path = inr d)
    (Hn : plain_component n = true) (Hns : has_slash n = false) (Hnnul : has_nul n = false) :
  safe_path root (String.append path (String slash n)) = inr (d ++ [n]).
Proof. now apply safe_path_snoc. Qed.

Lemma safe_path_components (root : Path) (path : string) (t : Path) :
  resolved root = true -> forallb (fun c => negb (has_slash c)) root = true ->
  safe_path root path = inr t ->
  exists rest, t = root ++ rest /\
    Forall (fun c => plain_component c = true /\ has_slash c = false) rest.
Proof.
  intros Hr Hs Ht.
  destruct (String.eqb path "") eqn:E.
  - apply String.eqb_eq in E. subst path. injection Ht as <-.
    exists []. split; [symmetry; apply app_nil_r | constructor].
  - apply String.eqb_neq in E. rewrite safe_path_nonempty in Ht by assumption.
    destruct (existsb has_nul _); [discriminate|].
    destruct (is_prefix root _) eqn:P; [|discriminate]. injection Ht as Ht.
    apply is_prefix_spec in P as [rest Hrest]. exists rest. split; [congruence|].
    apply List.Forall_forall. intros c Hc.
    assert (Hct : In c t) by (rewrite <- Ht, Hrest; apply in_or_app; now right).
    split.
    + pose proof (resolve_resolved (root ++ parts path)) as Hres. rewrite Ht in Hres.
      unfold resolved in Hres. rewrite forallb_forall in Hres. now apply Hres.
    + rewrite <- Ht in Hct. unfold resolve in Hct. apply in_rev in Hct.
      destruct (resolve_from_in _ _ _ Hct) as [[]|Hin].
      apply in_app_or in Hin as [Hin|Hin].
      * rewrite forallb_forall in Hs. apply Hs in Hin. now apply negb_true_iff.
      * unfold parts in Hin. apply filter_In in Hin as [Hin _].
        exact (split_slash_no_slash _ _ Hin).
Qed.

(** ** X2: the paths of a listing lead back to it *)

(** With a resolved root whose components hold no ["/"]: the [path] of
    a listing, given back to [safe_path], resolves to the listed
    directory; the breadcrumbs are one per component of that directory
    below the root, named after it, and the [path] of the [i]-th one
    resolves to the first [i+1] components. *)
Theorem list_files_paths_round_trip (iterdir : FS -> Path -> list string)
    (root : Path) (fs : FS) (path : string) (L : Listing) (fs' : FS)
    (Hroot : resolved root = true)
    (Hslash : forallb (fun c => negb (has_slash c)) root = true)
    (H : list_files iterdir root fs path = (inr L, fs')) :
  exists t rest,
    safe_path root path = inr t /\ t = root ++ rest /\
    safe_path root (ls_path L) = inr t /\
    length (ls_breadcrumbs L) = length rest /\
    (forall i b, ls_breadcrumbs L !! i = Some b ->
       rest !! i = Some (bc_name b) /\
       safe_path root (bc_path b) = inr (root ++ take (S i) rest)).
Proof.
  unfold list_files, list_files_body in H.
  destruct (safe_path root path) as [e|t] eqn:Ht; [discriminate|].
  destruct (Path_exists fs t) as [|[|]]; [discriminate| |discriminate].
  destruct (Path_is_dir fs t) as [|[|]]; [discriminate| |discriminate].
  destruct (make_items fs t (iterdir fs t)); [discriminate|].
  injection H as <- _.
  assert (Hnul : existsb has_nul t = false \/ path = "").
  { destruct (String.eqb_spec path "") as [->|Hp]; [now right|].
    left. exact (proj2 (safe_path_no_nul root path t Hp Ht)). }
  destruct (safe_path_components root path t Hroot Hslash Ht) as [rest [-> HF]].
  assert (Hnul' : forall k, existsb has_nul (root ++ take k rest) = false \/ take k rest = []).
  { intros k. destruct Hnul as [Hnul| ->].
    - left. rewrite existsb_app in Hnul |- *. apply orb_false_iff in Hnul as [H1 H2].
      rewrite H1. simpl. rewrite <- (take_drop k rest), existsb_app in H2.
      now apply orb_false_iff in H2 as [H2 _].
    - right. injection Ht as Ht. rewrite <- (app_nil_r root) in Ht at 1.
      apply app_inv_head in Ht. subst rest. apply take_nil. }
  rewrite (resolve_of_resolved root Hroot). unfold relative_to. rewrite drop_app_length.
  exists (root ++ rest), rest. simpl.
  split; [reflexivity|]. split; [reflexivity|].
  split; [apply safe_path_concat; [exact Hroot | exact HF |];
          rewrite <- (take_ge rest (length rest)) by lia; apply Hnul'|].
  split; [unfold breadcrumbs; apply length_imap|].
  intros i b Hb. unfold breadcrumbs in Hb. rewrite list_lookup_imap in Hb.
  destruct (rest !! i) as [c|] eqn:Hi; simpl in Hb; [|discriminate].
  injection Hb as <-. simpl. split; [reflexivity|].
  apply safe_path_concat; [exact Hroot | now apply Forall_take | apply Hnul'].
Qed.

Lemma list_files_paths_round_trip_witness :
  resolved plugins_root = true /\
  forallb (fun c => negb (has_slash c)) plugins_root = true /\
  list_files (fun _ _ => ["a.jar"]) plugins_root fs_d "d"
    = (inr {| ls_path := "d"; ls_breadcrumbs := [{| bc_name := "d"; bc_path := "d" |}];
              ls_items := [{| it_name := "a.jar"; it_type := "file"; it_size := Some 0 |}] |},
       fs_d) /\
  exists t rest,
    safe_path plugins_root "d" = inr t /\ t = plugins_root ++ rest /\
    safe_path plugins_root "d" = inr t /\
    length [{| bc_name := "d"; bc_path := "d" |}] = length rest /\
    (forall i b, [{| bc_name := "d"; bc_path := "d" |}] !! i = Some b ->
       rest !! i = Some (bc_name b) /\
       safe_path plugins_root (bc_path b) = inr (plugins_root ++ take (S i) rest)).
Proof.
  assert (H : list_files (fun _ _ => ["a.jar"]) plugins_root fs_d "d"
    = (inr {| ls_path := "d"; ls_breadcrumbs := [{| bc_name := "d"; bc_path := "d" |}];
              ls_items := [{| it_name := "a.jar"; it_type := "file"; it_size := Some 0 |}] |},
       fs_d)) by (reflexivity).
  split; [reflexivity|]. split; [reflexivity|]. split; [exact H|].
  exact (list_files_paths_round_trip _ plugins_root fs_d "d" _ _ eq_refl eq_refl H).
Defined.

End PathProps.

(* ================================================================== *)
(** ** The tree stays a tree *)

Module TreeProps.
Import Fixtures FileProps PathProps.

Lemma tree_wfb_sound (root : Path) (fs : FS) : tree_wfb root fs = true -> tree_wf root fs.
Proof.
  unfold tree_wfb. rewrite forallb_forall. intros Hall p v Hp Hpr.
  assert (Hin : In (p, v) (map_to_list fs)) by now apply list_elem_of_In, elem_of_map_to_list.
  specialize (Hall _ Hin). simpl in Hall.
  rewrite bool_decide_eq_false_2 in Hall by exact Hpr. simpl in Hall.
  apply andb_prop in Hall as [Hall Hdir]. apply andb_prop in Hall as [Hpre Hlen].
  apply is_prefix_spec in Hpre as [rest ->]. apply Nat.ltb_lt in Hlen.
  rewrite length_app in Hlen.
  destruct rest as [|r0 rest]; [simpl in Hlen; lia|].
  destruct (exists_last (l := r0 :: rest) ltac:(discriminate)) as [rest' [x Hx]].
  split; [exists rest', x; now rewrite Hx|].
  unfold is_dir in Hdir. destruct (fs !! parent _) as [[]|]; congruence.
Qed.

Lemma tree_wf_no_child_of_file (root : Path) (fs : FS) (t : Path) (c : list Byte.byte) :
  tree_wf root fs -> fs !! t = Some (File c) -> (exists rest, t = root ++ rest) ->
  forall x, fs !! (t ++ [x]) = None.
Proof.
  intros Hwf Ht [rest Hr] x. destruct (fs !! (t ++ [x])) as [v|] eqn:E; [|reflexivity].
  exfalso. destruct (Hwf _ _ E) as [_ Hp].
  - intros Heq. apply (f_equal length) in Heq. subst t.
    rewrite !length_app in Heq. simpl in Heq. lia.
  - unfold parent in Hp. rewrite removelast_last in Hp. congruence.
Qed.

Lemma tree_wf_insert (root : Path) (fs : FS) (d : Path) (n : string) (v : Node) :
  tree_wf root fs -> fs !! d = Some Dir -> (exists rest, d = root ++ rest) ->
  (v = Dir \/ fs !! (d ++ [n]) <> Some Dir) ->
  tree_wf root (<[d ++ [n] := v]> fs).
Proof.
  intros Hwf Hd [rest Hr] Hv p w Hp Hpr.
  assert (Hdn : d <> d ++ [n]).
  { intros E. apply (f_equal length) in E. rewrite length_app in E. simpl in E. lia. }
  apply lookup_insert_Some in Hp as [[<- <-]|[Hne Hp]].
  - split; [exists rest, n; subst d; now rewrite app_assoc|].
    unfold parent. rewrite removelast_last, lookup_insert_ne by (apply not_eq_sym, Hdn). exact Hd.
  - destruct (Hwf _ _ Hp Hpr) as [Hshape Hpar]. split; [exact Hshape|].
    destruct (decide (d ++ [n] = parent p)) as [E|E].
    + rewrite <- E, lookup_insert_eq. destruct Hv as [->|Hv]; [reflexivity|].
      rewrite E in Hv. congruence.
    + rewrite lookup_insert_ne by exact E. exact Hpar.
Qed.

Lemma tree_wf_delete (root : Path) (fs : FS) (t : Path) :
  tree_wf root fs -> (forall x, fs !! (t ++ [x]) = None) ->
  tree_wf root (delete t fs).
Proof.
  intros Hwf Hno p v Hp Hpr.
  apply lookup_delete_Some in Hp as [Htp Hp].
  destruct (Hwf _ _ Hp Hpr) as [[rest [x Hshape]] Hpar].
  split; [eauto|].
  rewrite lookup_delete_ne; [exact Hpar|].
  intros E. subst p. unfold parent in E. rewrite app_assoc, removelast_last in E.
  rewrite app_assoc, <- E, Hno in Hp. discriminate.
Qed.

Lemma upload_file_cases (root : Path) (fs : FS) (filename : string)
    (content : list Byte.byte) (path : string) r fs' :
  upload_file root fs filename content path = (r, fs') ->
  (exists e, r = inl e /\ fs' = fs) \/
  exists d, safe_path root path = inr d /\ fs !! d = Some Dir /\
    plain_component (py_name filename) = true /\ has_slash (py_name filename) = false /\
    existsb has_nul (d ++ [py_name filename]) = false /\
    fs !! (d ++ [py_name filename]) <> Some Dir /\
    r = inr {| up_filename := py_name filename; up_size := length content |} /\
    fs' = <[d ++ [py_name filename] := File content]> fs.
Proof.
  intros Hup. unfold upload_file in Hup.
  destruct (String.eqb filename ""); [injection Hup as <- <-; left; eauto|].
  destruct (safe_path root path) as [e|d] eqn:Hsp; [injection Hup as <- <-; left; eauto|].
  destruct (Path_exists fs d) as [e|[|]];
    [injection Hup as <- <-; left; eauto| |injection Hup as <- <-; left; eauto].
  destruct (Path_is_dir fs d) as [e|[|]] eqn:Hdir;
    [injection Hup as <- <-; left; eauto| |injection Hup as <- <-; left; eauto].
  apply Path_is_dir_true in Hdir.
  destruct (String.eqb (py_name filename) "" || starts_with_dot (py_name filename)) eqn:Hn;
    [injection Hup as <- <-; left; eauto|].
  apply orb_false_iff in Hn as [Hn1 Hn2]. apply String.eqb_neq in Hn1.
  destruct (write_bytes fs (d ++ [py_name filename]) content) as [e|fs1] eqn:Hw;
    [injection Hup as <- <-; left; eauto|].
  injection Hup as <- <-. apply write_bytes_ok in Hw as (-> & Hnul & Hcase).
  right. exists d. split; [reflexivity|]. split; [exact Hdir|].
  split; [now apply accepted_name_plain|]. split; [apply py_name_no_slash|].
  split; [exact Hnul|]. split; [|split; reflexivity].
  destruct Hcase as [[c Hc]|[Hc _]]; rewrite Hc; discriminate.
Qed.

Lemma create_folder_cases (root : Path) (fs : FS) (name path : string) r fs' :
  create_folder root fs name path = (r, fs') ->
  (exists e, r = inl e /\ fs' = fs) \/
  exists d, safe_path root path = inr d /\ fs !! d = Some Dir /\
    plain_component (py_name name) = true /\ has_slash (py_name name) = false /\
    existsb has_nul (d ++ [py_name name]) = false /\
    fs !! (d ++ [py_name name]) = None /\
    r = inr (py_name name) /\ fs' = <[d ++ [py_name name] := Dir]> fs.
Proof.
  intros Hc. unfold create_folder in Hc.
  destruct (safe_path root path) as [e|d] eqn:Hsp; [injection Hc as <- <-; left; eauto|].
  destruct (Path_exists fs d) as [e|[|]];
    [injection Hc as <- <-; left; eauto| |injection Hc as <- <-; left; eauto].
  destruct (String.eqb (py_name name) "" || starts_with_dot (py_name name)) eqn:Hn;
    [injection Hc as <- <-; left; eauto|].
  apply orb_false_iff in Hn as [Hn1 Hn2]. apply String.eqb_neq in Hn1.
  destruct (Path_exists fs (d ++ [py_name name])) as [e|[|]];
    [injection Hc as <- <-; left; eauto|injection Hc as <- <-; left; eauto|].
  destruct (mkdir fs (d ++ [py_name name])) as [e|fs1] eqn:Hm;
    [injection Hc as <- <-; left; eauto|].
  injection Hc as <- <-. apply mkdir_ok in Hm as (-> & Hnone & Hnul & _ & Hpar).
  unfold parent in Hpar. rewrite removelast_last in Hpar.
  right. exists d. repeat split; auto using accepted_name_plain, py_name_no_slash.
Qed.

Lemma delete_item_cases (root : Path) (fs : FS) (path : string) r fs' :
  resolved root = true ->
  delete_item root fs path = (r, fs') ->
  (exists e, r = inl e /\ fs' = fs) \/
  exists t v, safe_path root path = inr t /\ t <> root /\ fs !! t = Some v /\
    (v = Dir -> forall x, fs !! (t ++ [x]) = None) /\
    r = inr path /\ fs' = delete t fs.
Proof.
  intros Hr Hd. unfold delete_item in Hd.
  destruct (String.eqb path "") eqn:Hp; [injection Hd as <- <-; left; eauto|].
  apply String.eqb_neq in Hp.
  destruct (safe_path root path) as [e|t] eqn:Hsp; [injection Hd as <- <-; left; eauto|].
  destruct (safe_path_no_nul root path t Hp Hsp) as [_ Hnul].
  destruct (safe_path_under_root root path t Hr Hsp) as [Htr _].
  rewrite (resolve_of_resolved root Hr), (resolve_of_resolved t Htr) in Hd.
  destruct (fs !! t) as [v|] eqn:Ht.
  2:{ destruct (Path_exists fs t) as [e|[|]] eqn:Hex;
        [injection Hd as <- <-; left; eauto | | injection Hd as <- <-; left; eauto].
      apply stat_test_true in Hex as [v [Hv _]]. congruence. }
  unfold Path_exists, Path_is_file, Path_is_dir in Hd.
  rewrite !(stat_test_hit _ fs t v Hnul Ht) in Hd.
  simpl in Hd. destruct (bool_decide (t = root)) eqn:Hroot; [injection Hd as <- <-; left; eauto|].
  apply bool_decide_eq_false in Hroot.
  destruct v as [c|].
  - injection Hd as <- <-. right. exists t, (File c). repeat split; auto. discriminate.
  - destruct (has_child fs t) eqn:Hch; [injection Hd as <- <-; left; eauto|].
    injection Hd as <- <-. right. exists t, Dir. repeat split; auto.
    intros _ x. destruct (fs !! (t ++ [x])) as [w|] eqn:E; [|reflexivity].
    assert (has_child fs t = true) by (apply has_child_spec; eauto). congruence.
Qed.

Lemma under_root_ne (root rest : Path) (x : string) : root ++ rest ++ [x] <> root.
Proof.
  intros E. apply (f_equal length) in E. rewrite !length_app in E. simpl in E. lia.
Qed.

Lemma strictly_under (root t : Path) :
  (exists rest, t = root ++ rest) -> t <> root -> exists rest x, t = root ++ rest ++ [x].
Proof.
  intros [rest ->] Hne. destruct rest as [|r0 rest]; [now rewrite app_nil_r in Hne|].
  destruct (exists_last (l := r0 :: rest) ltac:(discriminate)) as [rest' [x Hx]].
  exists rest', x. now rewrite Hx.
Qed.

(** ** X3-X5: the endpoints that change the tree keep it a tree *)

(** [upload_file] keeps the tree well formed: whatever it answers, every
    entry other than the root still lies strictly below the root, in a
    directory. *)
Theorem upload_file_keeps_tree (root : Path) (fs : FS) (filename : string)
    (content : list Byte.byte) (path : string) (r : Raised + UploadResult) (fs' : FS)
    (Hroot : resolved root = true) (Hwf : tree_wf root fs)
    (H : upload_file root fs filename content path = (r, fs')) :
  tree_wf root fs'.
Proof.
  destruct (upload_file_cases _ _ _ _ _ _ _ H)
    as [[e [_ ->]]|(d & Hsp & Hd & _ & _ & _ & Hdn & _ & ->)]; [exact Hwf|].
  apply tree_wf_insert; auto.
  now destruct (safe_path_under_root root path d Hroot Hsp).
Qed.

(** [create_folder] either answers with an error and leaves the tree as
    it was, or adds exactly one entry: a new directory directly inside an
    existing directory at or below the root; the tree stays well formed. *)
Theorem create_folder_keeps_tree (root : Path) (fs : FS) (name path : string) (r : Raised + string) (fs' : FS)
    (Hroot : resolved root = true) (Hwf : tree_wf root fs)
    (H : create_folder root fs name path = (r, fs')) :
  tree_wf root fs' /\
  ((exists e, r = inl e /\ fs' = fs) \/
   exists d n, r = inr n /\ fs !! d = Some Dir /\ (exists rest, d = root ++ rest) /\
     fs !! (d ++ [n]) = None /\ fs' = <[d ++ [n] := Dir]> fs).
Proof.
  destruct (create_folder_cases _ _ _ _ _ _ H)
    as [[e [-> ->]]|(d & Hsp & Hd & _ & _ & _ & Hdn & -> & ->)]; [split; eauto|].
  destruct (safe_path_under_root root path d Hroot Hsp) as [_ Hunder].
  split; [apply tree_wf_insert; auto|].
  right. exists d, (py_name name). auto.
Qed.

(** [delete_item] either answers with an error and leaves the tree as it
    was, or removes exactly one entry, strictly below the root, with
    nothing below it (a file or an empty directory); the tree stays well
    formed. *)
Theorem delete_item_keeps_tree (root : Path) (fs : FS) (path : string) (r : Raised + string) (fs' : FS)
    (Hroot : resolved root = true) (Hwf : tree_wf root fs)
    (H : delete_item root fs path = (r, fs')) :
  tree_wf root fs' /\
  ((exists e, r = inl e /\ fs' = fs) \/
   exists t, r = inr path /\ fs' = delete t fs /\ (exists rest x, t = root ++ rest ++ [x]) /\
     forall x, fs !! (t ++ [x]) = None).
Proof.
  destruct (delete_item_cases _ _ _ _ _ Hroot H)
    as [[e [-> ->]]|(t & v & Hsp & Hne & Ht & Hdir & -> & ->)]; [split; eauto|].
  destruct (safe_path_under_root root path t Hroot Hsp) as [_ Hunder].
  assert (Hno : forall x, fs !! (t ++ [x]) = None).
  { destruct v as [c|]; [exact (tree_wf_no_child_of_file root fs t c Hwf Ht Hunder) | now apply Hdir]. }
  split; [now apply tree_wf_delete|].
  right. exists t. repeat split; auto. now apply strictly_under.
Qed.

(** ** X6: a folder just created can be deleted, which undoes it *)

(** In a well-formed tree, after [create_folder name path] answered with
    the sanitized name [n], deleting [path + "/" + n] succeeds and gives
    back exactly the tree before the creation. *)
Theorem create_then_delete (root : Path) (fs : FS) (name path n : string) (fs' : FS)
    (Hroot : resolved root = true) (Hwf : tree_wf root fs)
    (H : create_folder root fs name path = (inr n, fs')) :
  delete_item root fs' (String.append path (String slash n))
    = (inr (String.append path (String slash n)), fs).
Proof.
  destruct (create_folder_cases _ _ _ _ _ _ H)
    as [[e [E _]]|(d & Hsp & Hd & Hp & Hs & Hnul & Hdn & En & ->)]; [discriminate|].
  injection En as En. rewrite <- En in Hp, Hs, Hnul, Hdn |- *. clear En.
  destruct (safe_path_under_root root path d Hroot Hsp) as [Hdres [rest Hrest]].
  pose proof Hnul as Hnul'. rewrite existsb_snoc_nul in Hnul'.
  apply orb_false_iff in Hnul' as [Hdnul Hnnul].
  pose proof (safe_path_root_no_nul root path d Hsp Hdnul) as Hrootnul.
  unfold delete_item.
  replace (String.eqb (String.append path (String slash n)) "") with false
    by (symmetry; apply String.eqb_neq; destruct path; discriminate).
  rewrite (safe_path_snoc root path n d Hroot Hrootnul Hsp Hp Hs Hnnul).
  unfold Path_exists, Path_is_file, Path_is_dir.
  rewrite !(stat_test_hit _ (<[d ++ [n] := Dir]> fs) (d ++ [n]) Dir Hnul
              (lookup_insert_eq _ _ _)).
  simpl.
  rewrite (resolve_of_resolved root Hroot), resolve_snoc_plain, (resolve_of_resolved d Hdres)
    by exact Hp.
  rewrite bool_decide_eq_false_2 by (subst d; rewrite <- app_assoc; apply under_root_ne).
  replace (has_child (<[d ++ [n] := Dir]> fs) (d ++ [n])) with false.
  - unfold rmdir. rewrite delete_insert_id by exact Hdn. reflexivity.
  - symmetry. apply not_true_iff_false. rewrite has_child_spec. intros (x & v & Hx).
    rewrite lookup_insert_ne in Hx.
    + destruct (Hwf _ _ Hx) as [_ Hpar].
      * intros E. apply (f_equal length) in E. rewrite Hrest, !length_app in E. simpl in E. lia.
      * unfold parent in Hpar. rewrite removelast_last in Hpar. congruence.
    + intros E. apply (f_equal length) in E. rewrite !length_app in E. simpl in E. lia.
Qed.

(** ** X7: deleting a file just uploaded *)

(** After a successful upload into [path], deleting [path + "/" + name]
    with the name the upload answered succeeds; the tree is the one
    before the upload without that entry, so exactly the one before when
    no file of that name existed. *)
Theorem upload_then_delete (root : Path) (fs : FS) (filename : string)
    (content : list Byte.byte) (path : string) (res : UploadResult) (fs' : FS)
    (Hroot : resolved root = true)
    (H : upload_file root fs filename content path = (inr res, fs')) :
  exists d, safe_path root path = inr d /\
    delete_item root fs' (String.append path (String slash (up_filename res)))
      = (inr (String.append path (String slash (up_filename res))),
         delete (d ++ [up_filename res]) fs) /\
    (fs !! (d ++ [up_filename res]) = None -> delete (d ++ [up_filename res]) fs = fs).
Proof.
  destruct (upload_file_cases _ _ _ _ _ _ _ H)
    as [[e [E _]]|(d & Hsp & Hd & Hp & Hs & Hnul & Hdn & En & ->)]; [discriminate|].
  injection En as En. subst res. simpl.
  destruct (safe_path_under_root root path d Hroot Hsp) as [Hdres [rest Hrest]].
  set (n := py_name filename) in *.
  pose proof Hnul as Hnul'. rewrite existsb_snoc_nul in Hnul'.
  apply orb_false_iff in Hnul' as [Hdnul Hnnul].
  pose proof (safe_path_root_no_nul root path d Hsp Hdnul) as Hrootnul.
  exists d. split; [exact Hsp|]. split; [|apply delete_id].
  unfold delete_item.
  replace (String.eqb (String.append path (String slash n)) "") with false
    by (symmetry; apply String.eqb_neq; destruct path; discriminate).
  rewrite (safe_path_snoc root path n d Hroot Hrootnul Hsp Hp Hs Hnnul).
  unfold Path_exists, Path_is_file.
  rewrite !(stat_test_hit _ (<[d ++ [n] := File content]> fs) (d ++ [n]) (File content) Hnul
              (lookup_insert_eq _ _ _)).
  simpl.
  rewrite (resolve_of_resolved root Hroot), resolve_snoc_plain, (resolve_of_resolved d Hdres)
    by exact Hp.
  rewrite bool_decide_eq_false_2 by (subst d; rewrite <- app_assoc; apply under_root_ne).
  unfold unlink. rewrite delete_insert_eq. reflexivity.
Qed.

Lemma make_items_in (fs : FS) (dir : Path) (names : list string) (items : list Item) (it : Item) :
  make_items fs dir names = inr items -> In it items ->
  exists nm, make_item fs dir nm = inr it.
Proof.
  revert items; induction names as [|nm names IH]; intros items Hm Hin; simpl in Hm.
  - injection Hm as <-. destruct Hin.
  - destruct (make_item fs dir nm) as [e|it0] eqn:E1; [discriminate|].
    destruct (make_items fs dir names) as [e|its] eqn:E2; [discriminate|].
    injection Hm as <-. destruct Hin as [<-|Hin]; [eauto|]. now apply (IH its).
Qed.

Lemma make_item_name (fs : FS) (dir : Path) (nm : string) (it : Item) :
  make_item fs dir nm = inr it -> it_name it = nm.
Proof.
  unfold make_item. destruct (stat fs (dir ++ [nm])) as [e|[c|]]; intros H; try discriminate;
    injection H as <-; reflexivity.
Qed.

(** ** X8: the listing shows what was uploaded *)

(** After a successful upload into [path], any listing of [path] (in
    whatever order the directory is enumerated) shows the uploaded name,
    if at all, as a file of the uploaded size. *)
Theorem upload_then_list (iterdir : FS -> Path -> list string) (root : Path) (fs : FS)
    (filename : string) (content : list Byte.byte) (path : string)
    (res : UploadResult) (fs' : FS) (L : Listing) (fs'' : FS)
    (Hup : upload_file root fs filename content path = (inr res, fs'))
    (Hls : list_files iterdir root fs' path = (inr L, fs'')) :
  forall it, In it (ls_items L) -> it_name it = up_filename res ->
    it = {| it_name := up_filename res; it_type := "file"; it_size := Some (up_size res) |}.
Proof.
  destruct (upload_file_cases _ _ _ _ _ _ _ Hup)
    as [[e [E _]]|(d & Hsp & Hd & Hp & Hs & Hnul & Hdn & En & ->)]; [discriminate|].
  injection En as En. subst res. simpl.
  unfold list_files, list_files_body in Hls. rewrite Hsp in Hls.
  destruct (Path_exists _ d) as [|[|]]; [discriminate| |discriminate].
  destruct (Path_is_dir _ d) as [|[|]]; [discriminate| |discriminate].
  destruct (make_items _ d _) as [e|items] eqn:Hm; [discriminate|].
  injection Hls as <- _. simpl. intros it Hin Hname.
  destruct (sort_items_spec items) as [_ [Hperm _]].
  apply (Permutation_in _ Hperm) in Hin.
  destruct (make_items_in _ _ _ _ _ Hm Hin) as [nm Hnm].
  pose proof (make_item_name _ _ _ _ Hnm) as Hn. rewrite Hname in Hn. subst nm.
  unfold make_item in Hnm. rewrite (stat_hit _ _ _ Hnul (lookup_insert_eq _ _ _)) in Hnm.
  injection Hnm as <-. reflexivity.
Qed.

(** ** Witnesses *)

Definition fs_d_new : FS := <[["srv"; "plugins"; "d"; "new"] := Dir]> fs_d.
Definition fs_d_up : FS := <[["srv"; "plugins"; "d"; "x.jar"] := File [Byte.x01; Byte.x02]]> fs_d.

Lemma fs_d_tree : tree_wf plugins_root fs_d.
Proof. apply tree_wfb_sound. reflexivity. Qed.

Lemma upload_file_keeps_tree_witness :
  resolved plugins_root = true /\ tree_wf plugins_root fs_d /\
  upload_file plugins_root fs_d "../../x.jar" [Byte.x01; Byte.x02] "d"
    = (inr {| up_filename := "x.jar"; up_size := 2 |}, fs_d_up) /\
  tree_wf plugins_root fs_d_up.
Proof.
  assert (H : upload_file plugins_root fs_d "../../x.jar" [Byte.x01; Byte.x02] "d"
    = (inr {| up_filename := "x.jar"; up_size := 2 |}, fs_d_up)) by reflexivity.
  split; [reflexivity|]. split; [exact fs_d_tree|]. split; [exact H|].
  exact (upload_file_keeps_tree plugins_root fs_d "../../x.jar" [Byte.x01; Byte.x02] "d"
           _ _ eq_refl fs_d_tree H).
Defined.

Lemma create_folder_keeps_tree_witness :
  resolved plugins_root = true /\ tree_wf plugins_root fs_d /\
  create_folder plugins_root fs_d "new" "d" = (inr "new", fs_d_new) /\
  tree_wf plugins_root fs_d_new /\
  ((exists e, @inr Raised string "new" = inl e /\ fs_d_new = fs_d) \/
   exists d n, @inr Raised string "new" = inr n /\ fs_d !! d = Some Dir /\
     (exists rest, d = plugins_root ++ rest) /\
     fs_d !! (d ++ [n]) = None /\ fs_d_new = <[d ++ [n] := Dir]> fs_d).
Proof.
  assert (H : create_folder plugins_root fs_d "new" "d" = (inr "new", fs_d_new))
    by reflexivity.
  split; [reflexivity|]. split; [exact fs_d_tree|]. split; [exact H|].
  exact (create_folder_keeps_tree plugins_root fs_d "new" "d" _ _ eq_refl fs_d_tree H).
Defined.

Lemma delete_item_keeps_tree_witness :
  resolved plugins_root = true /\ tree_wf plugins_root fs_d /\
  delete_item plugins_root fs_d "d/a.jar" = (inr "d/a.jar", delete ["srv"; "plugins"; "d"; "a.jar"] fs_d) /\
  tree_wf plugins_root (delete ["srv"; "plugins"; "d"; "a.jar"] fs_d) /\
  ((exists e, @inr Raised string "d/a.jar" = inl e /\
              delete ["srv"; "plugins"; "d"; "a.jar"] fs_d = fs_d) \/
   exists t, @inr Raised string "d/a.jar" = inr "d/a.jar" /\
     delete ["srv"; "plugins"; "d"; "a.jar"] fs_d = delete t fs_d /\
     (exists rest x, t = plugins_root ++ rest ++ [x]) /\
     forall x, fs_d !! (t ++ [x]) = None).
Proof.
  assert (H : delete_item plugins_root fs_d "d/a.jar"
    = (inr "d/a.jar", delete ["srv"; "plugins"; "d"; "a.jar"] fs_d)) by reflexivity.
  split; [reflexivity|]. split; [exact fs_d_tree|]. split; [exact H|].
  exact (delete_item_keeps_tree plugins_root fs_d "d/a.jar" _ _ eq_refl fs_d_tree H).
Defined.

Lemma create_then_delete_witness :
  resolved plugins_root = true /\ tree_wf plugins_root fs_d /\
  create_folder plugins_root fs_d "new" "d" = (inr "new", fs_d_new) /\
  delete_item plugins_root fs_d_new "d/new" = (inr "d/new", fs_d).
Proof.
  assert (H : create_folder plugins_root fs_d "new" "d" = (inr "new", fs_d_new))
    by reflexivity.
  split; [reflexivity|]. split; [exact fs_d_tree|]. split; [exact H|].
  exact (create_then_delete plugins_root fs_d "new" "d" "new" _ eq_refl fs_d_tree H).
Defined.

Lemma upload_then_delete_witness :
  resolved plugins_root = true /\
  upload_file plugins_root fs_d "../../x.jar" [Byte.x01; Byte.x02] "d"
    = (inr {| up_filename := "x.jar"; up_size := 2 |}, fs_d_up) /\
  exists d, safe_path plugins_root "d" = inr d /\
    delete_item plugins_root fs_d_up "d/x.jar"
      = (inr "d/x.jar", delete (d ++ ["x.jar"]) fs_d) /\
    (fs_d !! (d ++ ["x.jar"]) = None -> delete (d ++ ["x.jar"]) fs_d = fs_d).
Proof.
  assert (H : upload_file plugins_root fs_d "../../x.jar" [Byte.x01; Byte.x02] "d"
    = (inr {| up_filename := "x.jar"; up_size := 2 |}, fs_d_up)) by reflexivity.
  split; [reflexivity|]. split; [exact H|].
  exact (upload_then_delete plugins_root fs_d "../../x.jar" [Byte.x01; Byte.x02] "d" _ _ eq_refl H).
Defined.

Lemma upload_then_list_witness :
  upload_file plugins_root fs_d "../../x.jar" [Byte.x01; Byte.x02] "d"
    = (inr {| up_filename := "x.jar"; up_size := 2 |}, fs_d_up) /\
  list_files (fun _ _ => ["x.jar"; "a.jar"]) plugins_root fs_d_up "d"
    = (inr {| ls_path := "d"; ls_breadcrumbs := [{| bc_name := "d"; bc_path := "d" |}];
              ls_items := [{| it_name := "a.jar"; it_type := "file"; it_size := Some 0 |};
                           {| it_name := "x.jar"; it_type := "file"; it_size := Some 2 |}] |},
       fs_d_up) /\
  forall it, In it [{| it_name := "a.jar"; it_type := "file"; it_size := Some 0 |};
                    {| it_name := "x.jar"; it_type := "file"; it_size := Some 2 |}] ->
    it_name it = "x.jar" ->
    it = {| it_name := "x.jar"; it_type := "file"; it_size := Some 2 |}.
Proof.
  assert (H1 : upload_file plugins_root fs_d "../../x.jar" [Byte.x01; Byte.x02] "d"
    = (inr {| up_filename := "x.jar"; up_size := 2 |}, fs_d_up)) by reflexivity.
  assert (H2 : list_files (fun _ _ => ["x.jar"; "a.jar"]) plugins_root fs_d_up "d"
    = (inr {| ls_path := "d"; ls_breadcrumbs := [{| bc_name := "d"; bc_path := "d" |}];
              ls_items := [{| it_name := "a.jar"; it_type := "file"; it_size := Some 0 |};
                           {| it_name := "x.jar"; it_type := "file"; it_size := Some 2 |}] |},
       fs_d_up)) by reflexivity.
  split; [exact H1|]. split; [exact H2|].
  exact (upload_then_list _ plugins_root fs_d "../../x.jar" [Byte.x01; Byte.x02] "d" _ _ _ _ H1 H2).
Defined.

Lemma safe_path_child_witness :
  resolved plugins_root = true /\ existsb has_nul plugins_root = false /\
  safe_path plugins_root "d" = inr ["srv"; "plugins"; "d"] /\
  plain_component "a.jar" = true /\ has_slash "a.jar" = false /\ has_nul "a.jar" = false /\
  safe_path plugins_root (String.append "d" (String slash "a.jar"))
    = inr (["srv"; "plugins"; "d"] ++ ["a.jar"]).
Proof.
  split; [reflexivity|]. split; [reflexivity|]. split; [reflexivity|].
  split; [reflexivity|]. split; [reflexivity|]. split; [reflexivity|].
  exact (safe_path_child plugins_root "d" "a.jar" ["srv"; "plugins"; "d"]
           eq_refl eq_refl eq_refl eq_refl eq_refl eq_refl).
Defined.

End TreeProps.

(* ================================================================== *)
(** ** The container client and its endpoints *)

Module ClientProps.
Import Unraid Endpoints.

Section Remote.
Context {RS : Type} (server : Query -> RS -> (Exn + Response) * RS).

Ltac run_client :=
  unfold start_container, stop_container, get_container_status, bind, swallow, ret, _query;
  repeat match goal with
         | |- context [server ?q ?rs] => destruct (server q rs) as [[? | ?] ?]; simpl
         end;
  rewrite <- ?app_assoc; reflexivity.

Lemma start_log (name : string) (w : World RS) :
  w_log (snd (start_container server name w))
    = w_log w ++ [EQuery (QStart name); EQuery QContainers].
Proof. run_client. Qed.

Lemma stop_log (name : string) (w : World RS) :
  w_log (snd (stop_container server name w))
    = w_log w ++ [EQuery (QStop name); EQuery QContainers].
Proof. run_client. Qed.

Lemma find_status_name (name : string) (cs : list Container) :
  (exists s, find_status name cs = Some s /\ cs_name s = name) \/ find_status name cs = None.
Proof.
  induction cs as [|c cs IH]; simpl; [now right|].
  destruct (matches name c); [left; eexists; split; reflexivity | exact IH].
Qed.

(** ** X9: what start and stop send *)

(** [start_container] sends exactly two requests, the start mutation then
    the status query, whatever either of them answers, and waits for
    nothing; [stop_container] likewise with the stop mutation. *)
Theorem start_stop_request_log (name : string) (w : World RS) :
  w_log (snd (start_container server name w))
    = w_log w ++ [EQuery (QStart name); EQuery QContainers] /\
  w_log (snd (stop_container server name w))
    = w_log w ++ [EQuery (QStop name); EQuery QContainers].
Proof. split; [apply start_log | apply stop_log]. Qed.

(** ** X10: what restart sends *)

(** [restart_container] sends the stop mutation and a status query; if
    that query raised, nothing else happens; otherwise, whether the stop
    was confirmed or not, it waits 2 seconds, then sends the start
    mutation and a status query. *)
Theorem restart_request_log (name : string) (w : World RS) :
  w_log (snd (restart_container server name w)) =
    w_log w ++ [EQuery (QStop name); EQuery QContainers] ++
    match fst (stop_container server name w) with
    | inl _ => []
    | inr _ => [ESleep 2; EQuery (QStart name); EQuery QContainers]
    end.
Proof.
  pose proof (stop_log name w) as Hl.
  unfold restart_container, bind at 1.
  destruct (stop_container server name w) as [[e|b] w1]; simpl in Hl |- *.
  - rewrite Hl, ?app_nil_r. reflexivity.
  - unfold bind, sleep. rewrite start_log. simpl. rewrite Hl, <- !app_assoc. reflexivity.
Qed.

(** ** X11: the status endpoint *)

(** [GET /api/status] never answers with an HTTP error and always names
    the configured container, whatever name the remote lists it under.
    If the container query raised, the state is ["ERROR"] with the
    exception's message; otherwise there is no error field and the state
    is that of the first matching container, or ["NOT_FOUND"]. It sends
    nothing but that one query. *)
Theorem get_status_body (MINECRAFT_CONTAINER : string) (w : World RS) :
  exists b,
    get_status server MINECRAFT_CONTAINER w
      = (inr b, snd (get_container_status server MINECRAFT_CONTAINER w)) /\
    w_log (snd (get_container_status server MINECRAFT_CONTAINER w))
      = w_log w ++ [EQuery QContainers] /\
    sb_container b = MINECRAFT_CONTAINER /\
    match fst (_query server QContainers w) with
    | inl (TransportError msg) => sb_state b = "ERROR" /\ sb_error b = Some msg
    | inr r =>
        sb_error b = None /\
        sb_state b = match find_status MINECRAFT_CONTAINER (default [] r) with
                     | Some s => cs_state s
                     | None => "NOT_FOUND"
                     end
    end.
Proof.
  unfold get_status, get_container_status, bind, ret, _query.
  destruct (server QContainers (w_remote w)) as [[[msg]|r] rs']; simpl.
  - eexists. repeat split.
  - destruct (find_status_name MINECRAFT_CONTAINER (default [] r)) as [[s [-> Hn]]| ->];
      eexists; repeat split; simpl; auto.
Qed.

(** ** X12: the action endpoints *)

(** [POST /api/start] ignores what the start mutation answers: it answers
    500 with the message of the status read if that read raised, and
    otherwise success exactly when the container was then found
    ["RUNNING"], with the matching message. [POST /api/stop] is the same
    with ["EXITED"]. [POST /api/restart] answers 500 already when the
    status read of the stop raised, and otherwise as the start does
    after the 2 second wait, whatever the stop found. *)
Theorem action_endpoints (C : string) (w : World RS) :
  start_server server C w =
    match get_container_status server C (snd (_query server (QStart C) w)) with
    | (inl (TransportError msg), w2) => (inl (HTTPExc 500 msg), w2)
    | (inr st, w2) =>
        (inr (if in_state "RUNNING" st
              then {| ab_success := true; ab_message := "Server started successfully" |}
              else {| ab_success := false; ab_message := "Failed to start server" |}), w2)
    end /\
  stop_server server C w =
    match get_container_status server C (snd (_query server (QStop C) w)) with
    | (inl (TransportError msg), w2) => (inl (HTTPExc 500 msg), w2)
    | (inr st, w2) =>
        (inr (if in_state "EXITED" st
              then {| ab_success := true; ab_message := "Server stopped successfully" |}
              else {| ab_success := false; ab_message := "Failed to stop server" |}), w2)
    end /\
  restart_server server C w =
    match stop_container server C w with
    | (inl (TransportError msg), w1) => (inl (HTTPExc 500 msg), w1)
    | (inr _, w1) =>
        match get_container_status server C
                (snd (_query server (QStart C) (emit (ESleep 2) w1))) with
        | (inl (TransportError msg), w2) => (inl (HTTPExc 500 msg), w2)
        | (inr st, w2) =>
            (inr (if in_state "RUNNING" st
                  then {| ab_success := true; ab_message := "Server restarted successfully" |}
                  else {| ab_success := false; ab_message := "Failed to restart server" |}), w2)
        end
    end.
Proof.
  unfold start_server, stop_server, restart_server, action_endpoint,
    restart_container, start_container, stop_container, swallow, sleep, bind, ret.
  repeat split.
  - destruct (_query server (QStart C) w) as [r1 w1]; simpl.
    destruct (get_container_status server C w1) as [[[msg]|st] w2]; simpl; [reflexivity|].
    destruct (in_state "RUNNING" st); reflexivity.
  - destruct (_query server (QStop C) w) as [r1 w1]; simpl.
    destruct (get_container_status server C w1) as [[[msg]|st] w2]; simpl; [reflexivity|].
    destruct (in_state "EXITED" st); reflexivity.
  - destruct (_query server (QStop C) w) as [r1 w1]; simpl.
    destruct (get_container_status server C w1) as [[[msg]|st] w2]; simpl; [reflexivity|].
    destruct (_query server (QStart C) (emit (ESleep 2) w2)) as [r3 w3]; simpl.
    destruct (get_container_status server C w3) as [[[msg]|st'] w4]; simpl; [reflexivity|].
    destruct (in_state "RUNNING" st'); reflexivity.
Qed.

End Remote.

Lemma drop_slashes_spec (l : list ascii) :
  exists k, l = repeat slash k ++ drop_slashes l /\
    forall r, drop_slashes l <> slash :: r.
Proof.
  induction l as [|c l IH]; simpl.
  - exists 0. split; [reflexivity | discriminate].
  - destruct (Ascii.eqb c slash) eqn:E.
    + apply Ascii.eqb_eq in E. subst c. destruct IH as [k [Hk Hn]].
      exists (S k). split; [simpl; now rewrite <- Hk | exact Hn].
    + exists 0. split; [reflexivity|]. intros r Er. injection Er as Ec _.
      subst c. rewrite Ascii.eqb_refl in E. discriminate.
Qed.

Lemma list_ascii_of_string_append (s t : string) :
  list_ascii_of_string (String.append s t) = list_ascii_of_string s ++ list_ascii_of_string t.
Proof. induction s as [|c s IH]; simpl; [reflexivity | now rewrite IH]. Qed.

(** ** X13: the GraphQL address *)

(** [UnraidClient.__init__] ignores trailing slashes of the configured
    URL: adding one does not change the GraphQL address; the URL is its
    stripped form followed by slashes only, and the stripped form does
    not end in a slash, so the address never has ["//graphql"] at its
    end. *)
Theorem graphql_url_trailing_slashes (url : string) :
  graphql_url (String.append url "/") = graphql_url url /\
  (exists k, list_ascii_of_string url
               = list_ascii_of_string (rstrip_slash url) ++ repeat slash k) /\
  (forall pre, list_ascii_of_string (rstrip_slash url) <> pre ++ [slash]).
Proof.
  unfold graphql_url, rstrip_slash.
  destruct (drop_slashes_spec (rev (list_ascii_of_string url))) as [k [Hk Hn]].
  split; [|split].
  - rewrite list_ascii_of_string_append, rev_app_distr. reflexivity.
  - exists k. rewrite list_ascii_of_string_of_list_ascii.
    set (D := drop_slashes (rev (list_ascii_of_string url))) in *.
    rewrite <- (rev_involutive (list_ascii_of_string url)) at 1.
    rewrite Hk, rev_app_distr, rev_repeat. reflexivity.
  - intros pre E. rewrite list_ascii_of_string_of_list_ascii in E.
    apply (f_equal (@rev ascii)) in E. rewrite rev_involutive, rev_app_distr in E.
    exact (Hn _ E).
Qed.

End ClientProps.
